(** * ranger line modes: a shallow embedding of ranger/core/linemode.py

    A line mode renders one directory entry as a left-aligned title and a
    right-aligned info string.  The Python classes become records of two
    functions; the Python runtime pieces the methods call (truthiness, the
    [%] string operator, [str.find], [str.strip], [datetime]) are embedded
    next to them, each following the CPython definition it stands for. *)

From Stdlib Require Import ZArith Lia Bool Ascii String List DecimalString.
From stdpp Require Import gmap strings list.

Local Open Scope Z_scope.

(** ** The Python runtime the module relies on *)

Module Py.

(** Values that reach the line modes: [None], [str] and [int].  A [str] is
    held as its UTF-8 bytes. *)
Inductive value :=
  | PyNone
  | Str (s : string)
  | Int (n : Z).

(** The exceptions that can leave a method of this module. *)
Inductive exn :=
  | NotImplementedError
  | CalledProcessError (returncode : Z)
  | OSError
  | ValueError
  | TypeError
  | UnknownModeError.

(** A call either returns or raises. *)
Inductive result (A : Type) :=
  | Ret (a : A)
  | Raise (e : exn).
Arguments Ret {A} a.
Arguments Raise {A} e.

Definition bind {A B} (r : result A) (k : A -> result B) : result B :=
  match r with
  | Ret a => k a
  | Raise e => Raise e
  end.

Notation "'let!' x ':=' r 'in' k" := (bind r (fun x => k))
  (at level 10, x name, r at level 100, k at level 200).

Definition is_CalledProcessError (e : exn) : bool :=
  match e with
  | CalledProcessError _ => true
  | _ => false
  end.

(** [bool(v)]: [None], the empty string and zero are false. *)
Definition truthy (v : value) : bool :=
  match v with
  | PyNone => false
  | Str s => negb (String.eqb s "")
  | Int n => negb (n =? 0)
  end.

(** [str(n)] for an integer. *)
Definition decimal (n : Z) : string := NilZero.string_of_int (Z.to_int n).

(** [str(v)], what the [%s] conversion prints. *)
Definition str (v : value) : string :=
  match v with
  | PyNone => "None"
  | Str s => s
  | Int n => decimal n
  end.

Fixpoint replicate_char (n : nat) (c : ascii) : string :=
  match n with
  | O => ""
  | S n' => String c (replicate_char n' c)
  end.

(** A byte that continues a UTF-8 character. *)
Definition is_continuation (c : ascii) : bool :=
  let n := nat_of_ascii c in (128 <=? n)%nat && (n <? 192)%nat.

(** [len(s)]: the number of characters, that is of the bytes that do not
    continue one. *)
Fixpoint len (s : string) : nat :=
  match s with
  | EmptyString => O
  | String a s' => if is_continuation a then len s' else S (len s')
  end.

(** [s.rjust(w)]: pad on the left up to [w] characters, never truncate. *)
Definition rjust (w : nat) (s : string) : string :=
  replicate_char (w - len s) " " +:+ s.

(** [s.zfill(w)] for a string without sign. *)
Definition zfill (w : nat) (s : string) : string :=
  replicate_char (w - len s) "0" +:+ s.

Definition digit_of (c : ascii) : option nat :=
  let n := nat_of_ascii c in
  if (48 <=? n)%nat && (n <=? 57)%nat then Some (n - 48)%nat else None.

(** The [%] operator on a format string and an argument tuple, for the
    conversions this module uses: [%s] and [%<width>s].  [conv] is [None]
    outside a conversion and [Some w] after a [%] and digits [w]. *)
Fixpoint format_from (conv : option nat) (fmt : string) (args : list value)
  : result string :=
  match fmt with
  | EmptyString =>
      match conv, args with
      | None, [] => Ret ""
      | None, _ :: _ => Raise TypeError
      | Some _, _ => Raise ValueError
      end
  | String c rest =>
      match conv with
      | None =>
          if Ascii.eqb c "%" then format_from (Some O) rest args
          else let! out := format_from None rest args in Ret (String c out)
      | Some w =>
          match digit_of c with
          | Some d => format_from (Some (10 * w + d)%nat) rest args
          | None =>
              if Ascii.eqb c "s" then
                match args with
                | [] => Raise TypeError
                | a :: args' =>
                    let! out := format_from None rest args' in
                    Ret (rjust w (str a) +:+ out)
                end
              else Raise ValueError
          end
      end
  end.

Definition format (fmt : string) (args : list value) : result string :=
  format_from None fmt args.

(** [c in s] for a one-character needle. *)
Fixpoint contains (c : ascii) (s : string) : bool :=
  match s with
  | EmptyString => false
  | String a s' => Ascii.eqb a c || contains c s'
  end.

(** [s.find(c)]: the lowest index of [c], or [-1].  The index counts
    bytes; the module uses it to cut at a comma, where counting bytes or
    characters gives the same cut. *)
Fixpoint find (c : ascii) (s : string) : Z :=
  match s with
  | EmptyString => -1
  | String a s' =>
      if Ascii.eqb a c then 0
      else let i := find c s' in if i <? 0 then -1 else i + 1
  end.

(** [s[0:j]]: a negative [j] counts from the end, and both ends are
    clamped to the string. *)
Definition slice_to (s : string) (j : Z) : string :=
  let n := Z.of_nat (String.length s) in
  let stop := if j <? 0 then Z.max 0 (j + n) else Z.min j n in
  String.substring 0 (Z.to_nat stop) s.

Definition starts_continuation (s : string) : bool :=
  match s with
  | EmptyString => false
  | String b _ => is_continuation b
  end.

(** The characters of a [str]: each byte with the continuation bytes that
    follow it. *)
Fixpoint chars (s : string) : list string :=
  match s with
  | EmptyString => []
  | String a s' =>
      match chars s' with
      | [] => [String a ""]
      | c :: cs =>
          if starts_continuation s' then String a c :: cs else String a "" :: c :: cs
      end
  end.

(** [''.join(cs)] *)
Fixpoint join (cs : list string) : string :=
  match cs with
  | [] => ""
  | c :: cs' => c +:+ join cs'
  end.

Fixpoint continue_with (acc : Z) (t : string) : Z :=
  match t with
  | EmptyString => acc
  | String b t' => continue_with (acc * 64 + (Z.of_nat (nat_of_ascii b) - 128)) t'
  end.

(** [ord(c)]: the code point of a character, from its UTF-8 bytes. *)
Definition code_point (c : string) : Z :=
  match c with
  | EmptyString => 0
  | String a t =>
      let n := Z.of_nat (nat_of_ascii a) in
      let lead :=
        if n <? 128 then n
        else if n <? 224 then n - 192
        else if n <? 240 then n - 224
        else n - 240 in
      continue_with lead t
  end.

(** The white space of [str.strip()] and [str.isspace()], by code point:
    U+0009 to U+000D, U+001C to U+0020, U+0085, U+00A0, U+1680, U+2000 to
    U+200A, U+2028, U+2029, U+202F, U+205F and U+3000. *)
Definition is_whitespace (ch : Z) : bool :=
  ((9 <=? ch) && (ch <=? 13)) || ((28 <=? ch) && (ch <=? 32))
  || (ch =? 133) || (ch =? 160) || (ch =? 5760)
  || ((8192 <=? ch) && (ch <=? 8202))
  || (ch =? 8232) || (ch =? 8233) || (ch =? 8239) || (ch =? 8287) || (ch =? 12288).

(** [c.isspace()] for one character. *)
Definition isspace (c : string) : bool := is_whitespace (code_point c).

(** [lstrip] and [rstrip] on the characters of a string. *)
Fixpoint lstrip (cs : list string) : list string :=
  match cs with
  | [] => []
  | c :: cs' => if isspace c then lstrip cs' else cs
  end.

Fixpoint rstrip (cs : list string) : list string :=
  match cs with
  | [] => []
  | c :: cs' =>
      match rstrip cs' with
      | [] => if isspace c then [] else [c]
      | r => c :: r
      end
  end.

(** [s.strip()] *)
Definition strip (s : string) : string := join (rstrip (lstrip (chars s))).

End Py.
Export Py.

(** ** Dates and times: the parts of CPython's [datetime] the module uses *)

Module Datetime.

(** [date(year, month, day)] *)
Record date := mkdate { year : Z; month : Z; day : Z }.

(** [datetime] extends [date] with the time of day. *)
Record datetime := mkdatetime { date_of : date; hour : Z; minute : Z; second : Z }.

(** The difference of two dates has whole days only. *)
Record timedelta := mktimedelta { days : Z }.

Definition MINYEAR : Z := 1.
Definition MAXYEAR : Z := 9999.
(** [date.max.toordinal()] *)
Definition MAXORDINAL : Z := 3652059.

Definition DAYS_IN_MONTH : list Z := [-1; 31; 28; 31; 30; 31; 30; 31; 31; 30; 31; 30; 31].
Definition DAYS_BEFORE_MONTH : list Z := [-1; 0; 31; 59; 90; 120; 151; 181; 212; 243; 273; 304; 334].

Definition index (l : list Z) (i : Z) : Z := nth (Z.to_nat i) l 0.

Definition is_leap (y : Z) : bool :=
  (y mod 4 =? 0) && (negb (y mod 100 =? 0) || (y mod 400 =? 0)).

(** Number of days before January 1st of year [y]. *)
Definition days_before_year (y : Z) : Z :=
  let y1 := y - 1 in y1 * 365 + y1 / 4 - y1 / 100 + y1 / 400.

Definition days_in_month (y m : Z) : Z :=
  if (m =? 2) && is_leap y then 29 else index DAYS_IN_MONTH m.

(** Number of days in year [y] before the first day of month [m]. *)
Definition days_before_month (y m : Z) : Z :=
  index DAYS_BEFORE_MONTH m + (if (2 <? m) && is_leap y then 1 else 0).

(** The ordinal of a date, with 0001-01-01 as day 1. *)
Definition ymd2ord (y m d : Z) : Z :=
  days_before_year y + days_before_month y m + d.

Definition DI400Y : Z := 146097.
Definition DI100Y : Z := 36524.
Definition DI4Y : Z := 1461.

(** The date of an ordinal. *)
Definition ord2ymd (n : Z) : date :=
  let n := n - 1 in
  let n400 := n / DI400Y in
  let n := n mod DI400Y in
  let y := n400 * 400 + 1 in
  let n100 := n / DI100Y in
  let n := n mod DI100Y in
  let n4 := n / DI4Y in
  let n := n mod DI4Y in
  let n1 := n / 365 in
  let n := n mod 365 in
  let y := y + n100 * 100 + n4 * 4 + n1 in
  if (n1 =? 4) || (n100 =? 4) then mkdate (y - 1) 12 31
  else
    let leapyear := (n1 =? 3) && (negb (n4 =? 24) || (n100 =? 3)) in
    let m := Z.shiftr (n + 50) 5 in
    let preceding := index DAYS_BEFORE_MONTH m + (if (2 <? m) && leapyear then 1 else 0) in
    if n <? preceding then
      let m := m - 1 in
      let preceding :=
        preceding - (index DAYS_IN_MONTH m + (if (m =? 2) && leapyear then 1 else 0)) in
      mkdate y m (n - preceding + 1)
    else mkdate y m (n - preceding + 1).

Definition toordinal (d : date) : Z := ymd2ord (year d) (month d) (day d).

(** Monday is 0 and Sunday is 6. *)
Definition weekday (d : date) : Z := (toordinal d + 6) mod 7.

(** [a - b] on dates *)
Definition date_sub (a b : date) : timedelta := mktimedelta (toordinal a - toordinal b).

(** The ordinal of 1970-01-01. *)
Definition EPOCH_ORDINAL : Z := 719163.

(** [datetime.fromtimestamp(t)] for a timestamp in whole seconds, where
    [utcoffset t] is the number of seconds local time is ahead of UTC at
    [t].  Python reads the offset from the time zone of the process; it
    raises when the local year leaves [MINYEAR..MAXYEAR].  One kind of
    exception stands for those of CPython, which raises [OverflowError] or
    [OSError] on a timestamp the platform cannot convert, and which also
    refuses the first day of the year 1. *)
Definition fromtimestamp (utcoffset : Z -> Z) (t : Z) : result datetime :=
  let local := t + utcoffset t in
  let n := EPOCH_ORDINAL + local / 86400 in
  let s := local mod 86400 in
  if (1 <=? n) && (n <=? MAXORDINAL) then
    Ret (mkdatetime (ord2ymd n) (s / 3600) (s mod 3600 / 60) (s mod 60))
  else Raise ValueError.

(** The names [strftime] takes from the locale ([LC_TIME]): abbreviated
    day names from Sunday on, abbreviated month names from January on. *)
Record locale := mklocale { abday : list string; abmon : list string }.

Definition C_locale : locale :=
  mklocale ["Sun"; "Mon"; "Tue"; "Wed"; "Thu"; "Fri"; "Sat"]
           ["Jan"; "Feb"; "Mar"; "Apr"; "May"; "Jun";
            "Jul"; "Aug"; "Sep"; "Oct"; "Nov"; "Dec"].

Definition name_at (l : list string) (i : Z) : string := nth (Z.to_nat i) l "".

Section strftime.
Variable loc : locale.
Variable d : datetime.

(** One conversion, as glibc prints it: [%Y] is the year in decimal,
    without padding, [%m %d %H %M] are zero-padded to two, [%b] and [%a]
    come from the locale; an unknown conversion is copied. *)
Definition directive (c : ascii) : string :=
  if Ascii.eqb c "Y" then decimal (year (date_of d))
  else if Ascii.eqb c "m" then zfill 2 (decimal (month (date_of d)))
  else if Ascii.eqb c "d" then zfill 2 (decimal (day (date_of d)))
  else if Ascii.eqb c "H" then zfill 2 (decimal (hour d))
  else if Ascii.eqb c "M" then zfill 2 (decimal (minute d))
  else if Ascii.eqb c "b" then name_at (abmon loc) (month (date_of d) - 1)
  else if Ascii.eqb c "a" then name_at (abday loc) ((weekday (date_of d) + 1) mod 7)
  else if Ascii.eqb c "%" then "%"
  else String "%" (String c "").

(** A conversion with the glibc flag [-]: numbers are not padded. *)
Definition directive_nopad (c : ascii) : string :=
  if Ascii.eqb c "Y" then decimal (year (date_of d))
  else if Ascii.eqb c "m" then decimal (month (date_of d))
  else if Ascii.eqb c "d" then decimal (day (date_of d))
  else if Ascii.eqb c "H" then decimal (hour d)
  else if Ascii.eqb c "M" then decimal (minute d)
  else directive c.

(** [d.strftime(fmt)] *)
Fixpoint strftime (fmt : string) : string :=
  match fmt with
  | EmptyString => ""
  | String c rest =>
      if Ascii.eqb c "%" then
        match rest with
        | EmptyString => "%"
        | String c1 rest1 =>
            if Ascii.eqb c1 "-" then
              match rest1 with
              | EmptyString => "%-"
              | String c2 rest2 => directive_nopad c2 +:+ strftime rest2
              end
            else directive c1 +:+ strftime rest1
        end
      else String c (strftime rest)
  end.
End strftime.

End Datetime.
Import Datetime.

(** ** The line modes *)

Module Linemode.

(** [fobj.stat]: the result of [os.stat]; [st_mtime] is kept in whole
    seconds, no format of this module prints more. *)
Record Stat := mkStat { st_mtime : Z }.

(** The file-system object a line is rendered for, with the attributes
    the line modes read.  [permission_string] is what
    [fobj.get_permission_string()] returns. *)
Record FileEntry := mkFileEntry {
  relative_path : string;
  path : string;
  is_directory : bool;
  size : Z;
  stat : option Stat;
  permission_string : string;
  user : string;
  group : string }.

(** The metadata of an entry: an attribute that is not set reads as
    [None]. *)
Record Metadata := mkMetadata { title : value; year : value; authors : value }.

(** How the subprocess of [spawn.check_output] ended: it ran and exited
    with a status, or it could not be started or read. *)
Inductive outcome :=
  | Exited (returncode : Z) (stdout : string)
  | Failed (e : exn).

(** What a call reads from outside its arguments: the clock, the time zone
    and the locale of the process, and the programs it can run. *)
Record Env := mkEnv {
  clock : Z;
  utcoffset : Z -> Z;
  lc_time : locale;
  run : list string -> outcome }.

(** [datetime.now()] *)
Definition now (env : Env) : result datetime := fromtimestamp (utcoffset env) (clock env).

(** Modelled from the spec: [ranger.ext.spawn.check_output], which runs the
    command, returns its standard output, and raises [CalledProcessError]
    when the exit status is not zero. *)
Definition check_output (env : Env) (popenargs : list string) : result string :=
  match run env popenargs with
  | Exited returncode stdout =>
      if returncode =? 0 then Ret stdout else Raise (CalledProcessError returncode)
  | Failed e => Raise e
  end.

Definition DEFAULT_LINEMODE : string := "filename".

(** A line mode class.  No method assigns to [self] or to a global, so a
    method is a function of the environment and its two arguments. *)
Record LinemodeBase := mkLinemode {
  name : string;
  uses_metadata : bool;
  required_metadata : list string;
  filetitle : Env -> FileEntry -> Metadata -> result value;
  infostring : Env -> FileEntry -> Metadata -> result value }.

(** [LinemodeBase.infostring], inherited by a class that does not
    override it. *)
Definition LinemodeBase_infostring (env : Env) (fobj : FileEntry) (metadata : Metadata)
  : result value := Raise NotImplementedError.

Section Classes.

(** [ranger.ext.human_readable.human_readable], the formatter of byte
    counts. *)
Variable human_readable : Z -> string.

Definition DefaultLinemode : LinemodeBase :=
  {| name := "filename";
     uses_metadata := false;
     required_metadata := [];
     filetitle := fun env fobj metadata => Ret (Str (relative_path fobj));
     infostring := LinemodeBase_infostring |}.

Definition TitleLinemode : LinemodeBase :=
  {| name := "metatitle";
     uses_metadata := true;
     required_metadata := ["title"];
     filetitle := fun env fobj metadata =>
       let name := title metadata in
       if truthy (year metadata) then
         let! s := format "%s - %s" [year metadata; name] in Ret (Str s)
       else Ret name;
     infostring := fun env fobj metadata =>
       if truthy (authors metadata) then
         match authors metadata with
         | Str authorstring =>
             if contains "," authorstring then
               Ret (Str (slice_to authorstring (find "," authorstring)))
             else Ret (Str authorstring)
         | _ => Raise TypeError
         end
       else Ret (Str "") |}.

Definition PermissionsLinemode : LinemodeBase :=
  {| name := "permissions";
     uses_metadata := false;
     required_metadata := [];
     filetitle := fun env fobj metadata =>
       let! s := format "%s %s %s %s"
                   [Str (permission_string fobj); Str (user fobj);
                    Str (group fobj); Str (relative_path fobj)] in
       Ret (Str s);
     infostring := fun env fobj metadata => Ret (Str "") |}.

Definition FileInfoLinemode : LinemodeBase :=
  {| name := "fileinfo";
     uses_metadata := false;
     required_metadata := [];
     filetitle := fun env fobj metadata => Ret (Str (relative_path fobj));
     infostring := fun env fobj metadata =>
       if negb (is_directory fobj) then
         match check_output env ["file"; "-Lb"; path fobj] with
         | Ret stdout => Ret (Str (strip stdout))
         | Raise e => if is_CalledProcessError e then Ret (Str "unknown") else Raise e
         end
       else Raise NotImplementedError |}.

Definition MtimeLinemode : LinemodeBase :=
  {| name := "mtime";
     uses_metadata := false;
     required_metadata := [];
     filetitle := fun env fobj metadata => Ret (Str (relative_path fobj));
     infostring := fun env fobj metadata =>
       match stat fobj with
       | None => Ret (Str "?")
       | Some st =>
           let! d := fromtimestamp (utcoffset env) (st_mtime st) in
           Ret (Str (strftime (lc_time env) d "%Y-%m-%d %H:%M"))
       end |}.

Definition SizeMtimeLinemode : LinemodeBase :=
  {| name := "sizemtime";
     uses_metadata := false;
     required_metadata := [];
     filetitle := fun env fobj metadata => Ret (Str (relative_path fobj));
     infostring := fun env fobj metadata =>
       match stat fobj with
       | None => Ret (Str "?")
       | Some st =>
           let! d := fromtimestamp (utcoffset env) (st_mtime st) in
           let! s := format "%s %s"
                       [Str (human_readable (size fobj));
                        Str (strftime (lc_time env) d "%Y-%m-%d %H:%M")] in
           Ret (Str s)
       end |}.

Definition HumanMtimeLinemode : LinemodeBase :=
  {| name := "humanmtime";
     uses_metadata := false;
     required_metadata := [];
     filetitle := fun env fobj metadata => Ret (Str (relative_path fobj));
     infostring := fun env fobj metadata =>
       match stat fobj with
       | None => Ret (Str "?")
       | Some st =>
           let! file_date := fromtimestamp (utcoffset env) (st_mtime st) in
           let! today := now env in
           let time_diff := date_sub (date_of today) (date_of file_date) in
           if 364 <? days time_diff then
             Ret (Str (strftime (lc_time env) file_date "%-d %b %Y"))
           else if 6 <? days time_diff then
             Ret (Str (strftime (lc_time env) file_date "%-d %b"))
           else if 1 <=? days time_diff then
             Ret (Str (strftime (lc_time env) file_date "%a"))
           else
             Ret (Str (strftime (lc_time env) file_date "%H:%M"))
       end |}.

Definition SizeHumanMtimeLinemode : LinemodeBase :=
  {| name := "sizehumanmtime";
     uses_metadata := false;
     required_metadata := [];
     filetitle := fun env fobj metadata => Ret (Str (relative_path fobj));
     infostring := fun env fobj metadata =>
       match stat fobj with
       | None => Ret (Str "?")
       | Some st =>
           let size := human_readable (size fobj) in
           let! file_date := fromtimestamp (utcoffset env) (st_mtime st) in
           let! today := now env in
           let time_diff := date_sub (date_of today) (date_of file_date) in
           if 364 <? days time_diff then
             let! s := format "%s %11s"
                         [Str size; Str (strftime (lc_time env) file_date "%-d %b %Y")] in
             Ret (Str s)
           else if 6 <? days time_diff then
             let! s := format "%s %11s"
                         [Str size; Str (strftime (lc_time env) file_date "%-d %b")] in
             Ret (Str s)
           else if 1 <=? days time_diff then
             let! s := format "%s %11s"
                         [Str size; Str (strftime (lc_time env) file_date "%a")] in
             Ret (Str s)
           else
             let! s := format "%s %11s"
                         [Str size; Str (strftime (lc_time env) file_date "%H:%M")] in
             Ret (Str s)
       end |}.

(** The classes of the module, in the order they are defined. *)
Definition linemodes : list LinemodeBase :=
  [DefaultLinemode; TitleLinemode; PermissionsLinemode; FileInfoLinemode;
   MtimeLinemode; SizeMtimeLinemode; HumanMtimeLinemode; SizeHumanMtimeLinemode].

End Classes.

(** Modelled from the spec: the registry of line modes (section 4.1), which
    the module itself does not define.  [register] adds a strategy keyed by
    its name, [lookup] returns the registered strategy or fails with
    [UnknownModeError], [default_name] is the constant default mode, and
    the registry is populated once, at startup, with the strategies. *)
Definition register (strategy : LinemodeBase) (reg : gmap string LinemodeBase)
  : gmap string LinemodeBase :=
  <[name strategy := strategy]> reg.

Definition lookup (reg : gmap string LinemodeBase) (mode : string) : result LinemodeBase :=
  match reg !! mode with
  | Some strategy => Ret strategy
  | None => Raise UnknownModeError
  end.

Definition default_name : string := DEFAULT_LINEMODE.

Definition register_all (strategies : list LinemodeBase) (reg : gmap string LinemodeBase)
  : gmap string LinemodeBase :=
  foldl (fun r strategy => register strategy r) reg strategies.

Definition startup (human_readable : Z -> string) : gmap string LinemodeBase :=
  register_all (linemodes human_readable) ∅.

End Linemode.
Import Linemode.

(** ** What the formats print, field by field

    The renderings below are written from their description (digits by
    division, names by position) and are compared with [strftime] in the
    proofs. *)

Module Fields.

Definition digit (n : Z) : ascii := ascii_of_nat (Z.to_nat (48 + n)).

(** A number below 100 on two digits, zero-padded. *)
Definition two_digits (n : Z) : string :=
  String (digit (n / 10)) (String (digit (n mod 10)) "").

(** A number below 10000 on four digits, zero-padded. *)
Definition four_digits (n : Z) : string :=
  String (digit (n / 1000)) (String (digit (n / 100 mod 10)) (two_digits (n mod 100))).

(** A number below 100 without padding. *)
Definition unpadded (n : Z) : string :=
  if n <? 10 then String (digit n) "" else two_digits n.

(** A number below 10000 without padding. *)
Definition numeral (n : Z) : string :=
  if n <? 100 then unpadded n
  else if n <? 1000 then String (digit (n / 100)) (two_digits (n mod 100))
  else four_digits n.

(** The day number of a timestamp in local time: whole days since the
    epoch, the time of day dropped. *)
Definition local_day (utcoffset : Z -> Z) (t : Z) : Z := (t + utcoffset t) / 86400.

Definition month_abbr (loc : locale) (d : datetime) : string :=
  name_at (abmon loc) (Datetime.month (date_of d) - 1).

Definition weekday_abbr (loc : locale) (d : datetime) : string :=
  name_at (abday loc) ((weekday (date_of d) + 1) mod 7).

(** [D Mon Y], the year without padding: [D Mon YYYY] from the year 1000
    on. *)
Definition day_month_year (loc : locale) (d : datetime) : string :=
  unpadded (Datetime.day (date_of d)) +:+ " " +:+ month_abbr loc d +:+ " "
  +:+ numeral (Datetime.year (date_of d)).

(** [D Mon] *)
Definition day_month (loc : locale) (d : datetime) : string :=
  unpadded (Datetime.day (date_of d)) +:+ " " +:+ month_abbr loc d.

(** [HH:MM] *)
Definition hour_minute (d : datetime) : string :=
  two_digits (hour d) +:+ ":" +:+ two_digits (minute d).

(** [Y-MM-DD HH:MM], the year without padding: [YYYY-MM-DD HH:MM] from
    the year 1000 on. *)
Definition date_hour_minute (d : datetime) : string :=
  numeral (Datetime.year (date_of d)) +:+ "-"
  +:+ two_digits (Datetime.month (date_of d)) +:+ "-"
  +:+ two_digits (Datetime.day (date_of d)) +:+ " " +:+ hour_minute d.

(** The fields of a [datetime] are those of a date and a time of day. *)
Definition well_formed (d : datetime) : Prop :=
  (MINYEAR <= Datetime.year (date_of d) <= MAXYEAR /\
   1 <= Datetime.month (date_of d) <= 12 /\
   1 <= Datetime.day (date_of d) <= 31) /\
  0 <= hour d <= 23 /\ 0 <= minute d <= 59.

(** A locale whose abbreviated names have at most three characters, as
    the C and English ones. *)
Definition short_names (loc : locale) : Prop :=
  Forall (fun s => (len s <= 3)%nat) (abmon loc ++ abday loc).

(** The day difference of the two strategies, read off the environment
    and the stat: today's day number minus the file's. *)
Definition days_diff (env : Env) (st : Stat) : Z :=
  local_day (utcoffset env) (clock env) - local_day (utcoffset env) (st_mtime st).

(** The rendering chosen for a day difference, tier by tier. *)
Definition tier (loc : locale) (file_date : datetime) (diff : Z) (shown : string) : Prop :=
  (364 < diff -> shown = day_month_year loc file_date) /\
  (6 < diff <= 364 -> shown = day_month loc file_date) /\
  (1 <= diff <= 6 -> shown = weekday_abbr loc file_date) /\
  (diff <= 0 -> shown = hour_minute file_date).

(** Two environments with one time zone, and two whose clocks read the
    same local day. *)
Definition same_zone (e1 e2 : Env) : Prop := forall t, utcoffset e1 t = utcoffset e2 t.

Definition same_day (e1 e2 : Env) : Prop :=
  local_day (utcoffset e1) (clock e1) = local_day (utcoffset e2) (clock e2).

(** A list of characters neither starts nor ends with white space. *)
Definition clean_ends (cs : list string) : Prop :=
  (forall c t, cs = c :: t -> isspace c = false) /\
  (forall t c, cs = t ++ [c] -> isspace c = false).

(** What makes a list of strings the characters of their concatenation:
    in each the bytes after the first continue it, and each but the first
    starts with a byte that does not continue. *)
Fixpoint all_continue (t : string) : bool :=
  match t with
  | EmptyString => true
  | String b t' => is_continuation b && all_continue t'
  end.

Definition tail_continues (c : string) : Prop :=
  match c with
  | EmptyString => False
  | String _ t => all_continue t = true
  end.

Definition starts_fresh (c : string) : Prop :=
  match c with
  | EmptyString => False
  | String a _ => is_continuation a = false
  end.

Definition wf (cs : list string) : Prop :=
  Forall tail_continues cs /\ Forall starts_fresh (tl cs).

(** Checking a predicate on [count] consecutive integers from [lo]. *)
Fixpoint all_from (P : Z -> bool) (count : nat) (lo : Z) : bool :=
  match count with
  | O => true
  | S c => P lo && all_from P c (lo + 1)
  end.

(** The end of [ord2ymd]: month and day from the day [n] of the year,
    counted from 0. *)
Definition month_and_day (n : Z) (leapyear : bool) : Z * Z :=
  let m := Z.shiftr (n + 50) 5 in
  let preceding := index DAYS_BEFORE_MONTH m + (if (2 <? m) && leapyear then 1 else 0) in
  if n <? preceding then
    let m := m - 1 in
    let preceding :=
      preceding - (index DAYS_IN_MONTH m + (if (m =? 2) && leapyear then 1 else 0)) in
    (m, n - preceding + 1)
  else (m, n - preceding + 1).

(** What is checked of [month_and_day] on each day of a year. *)
Definition month_and_day_ok (leapyear : bool) (n : Z) : bool :=
  let (m, d) := month_and_day n leapyear in
  (1 <=? m) && (m <=? 12) && (1 <=? d) && (d <=? 31)
  && (index DAYS_BEFORE_MONTH m + (if (2 <? m) && leapyear then 1 else 0) + d =? n + 1).

Definition two_digits_ok (n : Z) : bool :=
  String.eqb (zfill 2 (decimal n)) (two_digits n) && String.eqb (decimal n) (unpadded n).

Definition numeral_ok (n : Z) : bool :=
  String.eqb (decimal n) (numeral n).

End Fields.
Import Fields.

(** ** Concrete environments and entries for the examples *)

Module Sample.

Definition utc : Z -> Z := fun _ => 0.

Definition nothing_runs : list string -> outcome := fun _ => Failed OSError.

(** A stand-in for [human_readable]: the byte count and a unit. *)
Definition in_bytes (n : Z) : string := decimal n +:+ " B".

(** The abbreviations of the French locale of glibc. *)
Definition fr_FR : locale :=
  mklocale ["dim."; "lun."; "mar."; "mer."; "jeu."; "ven."; "sam."]
           ["janv."; "févr."; "mars"; "avril"; "mai"; "juin";
            "juil."; "août"; "sept."; "oct."; "nov."; "déc."].

(** 2024-03-10 12:00:00 UTC *)
Definition noon : Z := 1710072000.

Definition at_noon (loc : locale) : Env := mkEnv noon utc loc nothing_runs.

(** The same process one day later. *)
Definition next_noon (loc : locale) : Env := mkEnv (noon + 86400) utc loc nothing_runs.

(** A regular file of 4096 bytes last modified [age] days before [noon],
    at 09:30:00 UTC. *)
Definition aged (age : Z) : FileEntry :=
  mkFileEntry "notes.txt" "/home/user/notes.txt" false 4096
              (Some (mkStat (noon - 9000 - 86400 * age)))
              "-rw-r--r--" "user" "users".

Definition unreadable : FileEntry :=
  mkFileEntry "gone" "/home/user/gone" false 0 None "----------" "user" "users".

Definition a_directory : FileEntry :=
  mkFileEntry "src" "/home/user/src" true 4096 (Some (mkStat noon))
              "drwxr-xr-x" "user" "users".

Definition no_metadata : Metadata := mkMetadata PyNone PyNone PyNone.

(** An environment in which [file] prints [stdout] and exits with
    [returncode]. *)
Definition file_exits (returncode : Z) (stdout : string) : Env :=
  mkEnv noon utc C_locale (fun _ => Exited returncode stdout).

End Sample.
Import Sample.

(** ** Inputs at the edges: years of other than four digits, white space
    beyond ASCII *)

Module Edge.

(** 10000-01-01 00:00:00 UTC, one second after the last [datetime]. *)
Definition year_10000 : Z := 253402300800.

(** A process whose clock is past the year 9999. *)
Definition late_clock (loc : locale) : Env := mkEnv year_10000 utc loc nothing_runs.

(** A file stamped past the year 9999. *)
Definition far_future : FileEntry :=
  mkFileEntry "later" "/home/user/later" false 1 (Some (mkStat year_10000))
              "-rw-r--r--" "user" "users".

(** 0999-01-01 09:30:00 UTC *)
Definition year_999 : Z := -30641725800.

(** A file stamped in the year 999. *)
Definition charter : FileEntry :=
  mkFileEntry "charter" "/home/user/charter" false 1 (Some (mkStat year_999))
              "-rw-r--r--" "user" "users".

(** The output U+00A0, newline: a no-break space is the two bytes 194 and
    160. *)
Definition no_break_space_line : string :=
  String (ascii_of_nat 194) (String (ascii_of_nat 160) (String (ascii_of_nat 10) "")).

End Edge.
Import Edge.

(** * Proofs *)

(** ** Checking by enumeration *)

Lemma all_from_spec P count lo :
  all_from P count lo = true ->
  forall n, lo <= n < lo + Z.of_nat count -> P n = true.
Proof.
  revert lo. induction count as [|c IH]; intros lo H n Hn.
  - lia.
  - simpl in H. apply andb_true_iff in H as [H0 H1].
    destruct (Z.eq_dec n lo) as [->|Hne]; [exact H0|].
    apply (IH (lo + 1) H1). lia.
Qed.

Lemma all_from_range P len lo :
  all_from P (Z.to_nat len) lo = true ->
  forall n, lo <= n < lo + len -> P n = true.
Proof. intros H n Hn. apply (all_from_spec _ _ _ H). lia. Qed.

(** ** The calendar: [ord2ymd] inverts [toordinal] *)

(** The days of a year, one by one, with and without February 29th. *)
Lemma year_checked leapyear :
  all_from (month_and_day_ok leapyear) (Z.to_nat 365) 0 = true.
Proof. destruct leapyear; vm_compute; reflexivity. Qed.

Lemma month_and_day_spec n leapyear :
  0 <= n < 365 ->
  let (m, d) := month_and_day n leapyear in
  1 <= m <= 12 /\ 1 <= d <= 31 /\
  index DAYS_BEFORE_MONTH m + (if (2 <? m) && leapyear then 1 else 0) + d = n + 1.
Proof.
  intros Hn.
  pose proof (all_from_range (month_and_day_ok leapyear) 365 0
                (year_checked leapyear) n Hn) as H.
  unfold month_and_day_ok in H. destruct (month_and_day n leapyear) as [m d].
  repeat (apply andb_true_iff in H as [H ?]).
  repeat split; lia.
Qed.

(** The year and the day of the year of an ordinal, as [ord2ymd] splits
    it: [a] cycles of 400 years, [b] centuries, [c] cycles of 4 years,
    [e] years and [k] days. *)
Lemma ord2ymd_split n :
  let q := n - 1 in
  let a := q / DI400Y in
  let b := q mod DI400Y / DI100Y in
  let c := q mod DI400Y mod DI100Y / DI4Y in
  let e := q mod DI400Y mod DI100Y mod DI4Y / 365 in
  let k := q mod DI400Y mod DI100Y mod DI4Y mod 365 in
  let y := a * 400 + 1 + b * 100 + c * 4 + e in
  ord2ymd n =
    if (e =? 4) || (b =? 4) then mkdate (y - 1) 12 31
    else
      let leapyear := (e =? 3) && (negb (c =? 24) || (b =? 3)) in
      mkdate y (fst (month_and_day k leapyear)) (snd (month_and_day k leapyear)).
Proof.
  cbv zeta. unfold ord2ymd, month_and_day. cbv zeta.
  repeat match goal with
  | |- context [if ?b then _ else _] => destruct b
  end; reflexivity.
Qed.

(** Names the quotients and remainders of [ord2ymd_split] and keeps only
    their equations. *)
Ltac split_ordinal n :=
  rewrite (ord2ymd_split n); cbv zeta; unfold DI400Y, DI100Y, DI4Y;
  set (q := n - 1);
  set (a := q / 146097); set (r := q mod 146097);
  set (b := r / 36524); set (r1 := r mod 36524);
  set (c := r1 / 1461); set (r2 := r1 mod 1461);
  set (e := r2 / 365); set (k := r2 mod 365);
  assert (Hq : q = 146097 * a + r /\ 0 <= r < 146097)
    by (split; [apply Z.div_mod | apply Z.mod_pos_bound]; lia);
  assert (Hr : r = 36524 * b + r1 /\ 0 <= r1 < 36524)
    by (split; [apply Z.div_mod | apply Z.mod_pos_bound]; lia);
  assert (Hr1 : r1 = 1461 * c + r2 /\ 0 <= r2 < 1461)
    by (split; [apply Z.div_mod | apply Z.mod_pos_bound]; lia);
  assert (Hr2 : r2 = 365 * e + k /\ 0 <= k < 365)
    by (split; [apply Z.div_mod | apply Z.mod_pos_bound]; lia);
  clearbody a r b r1 c r2 e k.

(** Every ordinal is the ordinal of its date: subtracting ordinals counts
    calendar days. *)
Lemma toordinal_ord2ymd n : toordinal (ord2ymd n) = n.
Proof.
  split_ordinal n.
  destruct ((e =? 4) || (b =? 4)) eqn:Hlast.
  - set (y := a * 400 + 1 + b * 100 + c * 4 + e - 1).
    assert (Hy : y = 400 * a + 100 * b + 4 * c + e) by lia.
    clearbody y.
    assert (Hleap : is_leap y = true)
      by (unfold is_leap; Z.div_mod_to_equations; lia).
    unfold toordinal, ymd2ord, days_before_month, days_before_year.
    cbn [Datetime.year Datetime.month Datetime.day]. rewrite Hleap.
    change (index DAYS_BEFORE_MONTH 12) with 334. cbv zeta. simpl andb. cbv iota.
    Z.div_mod_to_equations. lia.
  - set (y := a * 400 + 1 + b * 100 + c * 4 + e).
    set (leapyear := (e =? 3) && (negb (c =? 24) || (b =? 3))).
    assert (Hy : y - 1 = 400 * a + 100 * b + 4 * c + e) by lia.
    clearbody y.
    assert (Hleap : is_leap y = leapyear)
      by (unfold is_leap, leapyear; Z.div_mod_to_equations; lia).
    pose proof (month_and_day_spec k leapyear ltac:(lia)) as Hmd.
    destruct (month_and_day k leapyear) as [m d]. destruct Hmd as (_ & _ & Hmd).
    unfold toordinal, ymd2ord, days_before_month, days_before_year.
    cbn [Datetime.year Datetime.month Datetime.day fst snd]. rewrite Hleap. cbv zeta.
    Z.div_mod_to_equations. lia.
Qed.

(** The ordinals up to [MAXORDINAL] are the dates of the years 1 to
    9999. *)
Lemma ord2ymd_range n :
  1 <= n <= MAXORDINAL ->
  MINYEAR <= Datetime.year (ord2ymd n) <= MAXYEAR /\
  1 <= Datetime.month (ord2ymd n) <= 12 /\ 1 <= Datetime.day (ord2ymd n) <= 31.
Proof.
  intros Hn. unfold MINYEAR, MAXYEAR, MAXORDINAL in *. split_ordinal n.
  destruct ((e =? 4) || (b =? 4)) eqn:Hlast.
  - cbn [Datetime.year Datetime.month Datetime.day]. lia.
  - pose proof (month_and_day_spec k
                  ((e =? 3) && (negb (c =? 24) || (b =? 3))) ltac:(lia)) as Hmd.
    destruct (month_and_day k _) as [m d]. destruct Hmd as (Hm & Hd & _).
    cbn [Datetime.year Datetime.month Datetime.day fst snd]. lia.
Qed.

(** ** Numerals, checked one by one *)

Lemma two_digits_checked : all_from two_digits_ok (Z.to_nat 100) 0 = true.
Proof. vm_compute. reflexivity. Qed.

Lemma numeral_checked : all_from numeral_ok (Z.to_nat 10000) 0 = true.
Proof. vm_cast_no_check (eq_refl true). Qed.

(** ** [fromtimestamp] *)

Lemma fromtimestamp_Ret tz t d :
  fromtimestamp tz t = Ret d ->
  toordinal (date_of d) = EPOCH_ORDINAL + local_day tz t /\ well_formed d.
Proof.
  unfold fromtimestamp, local_day, well_formed. cbv zeta.
  set (local := t + tz t).
  destruct (_ && _) eqn:Hrange; [|discriminate].
  intros [= <-]. simpl.
  apply andb_true_iff in Hrange as [H1 H2].
  apply Z.leb_le in H1, H2.
  split; [apply toordinal_ord2ymd|].
  split; [apply ord2ymd_range; lia|].
  pose proof (Z.mod_pos_bound local 86400 ltac:(lia)) as Hs.
  set (s := local mod 86400) in *.
  pose proof (Z.mod_pos_bound s 3600 ltac:(lia)).
  split.
  - split; [apply Z.div_pos; lia|]. apply Z.lt_succ_r, Z.div_lt_upper_bound; lia.
  - split; [apply Z.div_pos; lia|]. apply Z.lt_succ_r, Z.div_lt_upper_bound; lia.
Qed.

(** [fromtimestamp] returns exactly on the days [datetime] can hold. *)
Lemma fromtimestamp_in_range tz t :
  1 <= EPOCH_ORDINAL + local_day tz t <= MAXORDINAL ->
  exists d, fromtimestamp tz t = Ret d.
Proof.
  intros [H1 H2]. unfold fromtimestamp, local_day in *. cbv zeta.
  apply Z.leb_le in H1, H2. rewrite H1, H2. simpl. eauto.
Qed.

(** The difference of two local dates is the difference of the day
    numbers, whatever the times of day. *)
Lemma date_sub_days tz t1 t2 d1 d2 :
  fromtimestamp tz t1 = Ret d1 ->
  fromtimestamp tz t2 = Ret d2 ->
  days (date_sub (date_of d1) (date_of d2)) = local_day tz t1 - local_day tz t2.
Proof.
  intros H1 H2.
  apply fromtimestamp_Ret in H1 as [E1 _].
  apply fromtimestamp_Ret in H2 as [E2 _].
  unfold date_sub. simpl. rewrite E1, E2. lia.
Qed.

(** The day of the week from the day number: the epoch was a Thursday. *)
Lemma weekday_of_local_day tz t d :
  fromtimestamp tz t = Ret d ->
  (weekday (date_of d) + 1) mod 7 = (local_day tz t + 4) mod 7.
Proof.
  intros H. apply fromtimestamp_Ret in H as [E _].
  unfold weekday. rewrite E. unfold EPOCH_ORDINAL.
  rewrite Z.add_mod_idemp_l by lia.
  replace (719163 + local_day tz t + 6 + 1) with (local_day tz t + 4 + 102738 * 7) by lia.
  now rewrite Z.mod_add by lia.
Qed.

(** ** Strings *)

Lemma append_cons a s t : String a s +:+ t = String a (s +:+ t).
Proof. reflexivity. Qed.

Lemma append_empty_r s : s +:+ "" = s.
Proof. induction s as [|a s IH]; [reflexivity | now rewrite append_cons, IH]. Qed.

Lemma length_append s1 s2 :
  String.length (s1 +:+ s2) = (String.length s1 + String.length s2)%nat.
Proof.
  induction s1 as [|a s1 IH]; [reflexivity | rewrite append_cons; simpl; now rewrite IH].
Qed.

Lemma length_replicate_char n c : String.length (replicate_char n c) = n.
Proof. induction n as [|n IH]; [reflexivity | simpl; f_equal; exact IH]. Qed.

Lemma len_append s1 s2 : len (s1 +:+ s2) = (len s1 + len s2)%nat.
Proof.
  induction s1 as [|a s1 IH]; [reflexivity|]. rewrite append_cons. cbn [len].
  destruct (is_continuation a); now rewrite IH.
Qed.

Lemma len_spaces n : len (replicate_char n " ") = n.
Proof. induction n as [|n IH]; [reflexivity | cbn; f_equal; exact IH]. Qed.

(** A character has at least one byte. *)
Lemma len_le_length s : (len s <= String.length s)%nat.
Proof.
  induction s as [|a s IH]; [reflexivity|]. cbn [len String.length].
  destruct (is_continuation a); lia.
Qed.

(** [%11s] pads on the left and never cuts. *)
Lemma len_rjust w s : len (rjust w s) = Nat.max w (len s).
Proof. unfold rjust. rewrite len_append, len_spaces. lia. Qed.

(** *** Numerals *)

Lemma zfill2_decimal n : 0 <= n <= 99 -> zfill 2 (decimal n) = two_digits n.
Proof.
  intros H. assert (two_digits_ok n = true) as E
    by (apply (all_from_range two_digits_ok 100 0 two_digits_checked n); lia).
  unfold two_digits_ok in E. apply andb_true_iff in E as [E _].
  now apply String.eqb_eq in E.
Qed.

Lemma decimal_unpadded n : 0 <= n <= 99 -> decimal n = unpadded n.
Proof.
  intros H. assert (two_digits_ok n = true) as E
    by (apply (all_from_range two_digits_ok 100 0 two_digits_checked n); lia).
  unfold two_digits_ok in E. apply andb_true_iff in E as [_ E].
  now apply String.eqb_eq in E.
Qed.

Lemma decimal_numeral n : 0 <= n <= 9999 -> decimal n = numeral n.
Proof.
  intros H. assert (numeral_ok n = true) as E
    by (apply (all_from_range numeral_ok 10000 0 numeral_checked n); lia).
  now apply String.eqb_eq in E.
Qed.

(** From the year 1000 on the year has its four digits. *)
Lemma numeral_four_digits n : 1000 <= n -> numeral n = four_digits n.
Proof.
  intros H. unfold numeral.
  destruct (Z.ltb_spec n 100); [lia|]. destruct (Z.ltb_spec n 1000); [lia|].
  reflexivity.
Qed.

Lemma len_unpadded n : (len (unpadded n) <= 2)%nat.
Proof.
  etransitivity; [apply len_le_length|].
  unfold unpadded. destruct (n <? 10); simpl; lia.
Qed.

Lemma len_numeral n : (len (numeral n) <= 4)%nat.
Proof.
  etransitivity; [apply len_le_length|].
  unfold numeral, unpadded.
  destruct (n <? 100); [destruct (n <? 10)|destruct (n <? 1000)]; simpl; lia.
Qed.

(** *** The formats of the module, conversion by conversion *)

Section formats.
Variables (loc : locale) (d : datetime).
Hypothesis Hd : well_formed d.

Lemma strftime_d_b_Y : strftime loc d "%-d %b %Y" = day_month_year loc d.
Proof.
  destruct Hd as ((Hy & Hm & Hday) & Hh & Hmi). unfold MINYEAR, MAXYEAR in Hy.
  cbn [strftime Ascii.eqb Bool.eqb]. rewrite append_empty_r.
  unfold directive_nopad, directive, day_month_year, month_abbr. simpl Ascii.eqb. cbv iota.
  now rewrite decimal_unpadded, decimal_numeral by lia.
Qed.

Lemma strftime_d_b : strftime loc d "%-d %b" = day_month loc d.
Proof.
  destruct Hd as ((Hy & Hm & Hday) & Hh & Hmi).
  cbn [strftime Ascii.eqb Bool.eqb]. rewrite append_empty_r.
  unfold directive_nopad, directive, day_month, month_abbr. simpl Ascii.eqb. cbv iota.
  now rewrite decimal_unpadded by lia.
Qed.

Lemma strftime_a : strftime loc d "%a" = weekday_abbr loc d.
Proof. cbn [strftime Ascii.eqb Bool.eqb]. now rewrite append_empty_r. Qed.

Lemma strftime_H_M : strftime loc d "%H:%M" = hour_minute d.
Proof.
  destruct Hd as ((Hy & Hm & Hday) & Hh & Hmi).
  cbn [strftime Ascii.eqb Bool.eqb]. rewrite append_empty_r.
  unfold directive, hour_minute. simpl Ascii.eqb. cbv iota.
  now rewrite !zfill2_decimal by lia.
Qed.

Lemma strftime_Y_m_d_H_M : strftime loc d "%Y-%m-%d %H:%M" = date_hour_minute d.
Proof.
  destruct Hd as ((Hy & Hm & Hday) & Hh & Hmi). unfold MINYEAR, MAXYEAR in Hy.
  cbn [strftime Ascii.eqb Bool.eqb]. rewrite append_empty_r.
  unfold directive, date_hour_minute, hour_minute. simpl Ascii.eqb. cbv iota.
  now rewrite !zfill2_decimal, decimal_numeral by lia.
Qed.
End formats.

(** *** [find] and slicing *)

Lemma find_range c s :
  if contains c s then 0 <= find c s < Z.of_nat (String.length s) else find c s = -1.
Proof.
  induction s as [|a s IH]; [reflexivity|].
  cbn [contains find String.length]. destruct (Ascii.eqb a c); simpl; [lia|].
  destruct (contains c s).
  - destruct (Z.ltb_spec (find c s) 0); lia.
  - rewrite IH. simpl. reflexivity.
Qed.

Lemma slice_to_cons a s i :
  0 <= i <= Z.of_nat (String.length s) ->
  slice_to (String a s) (i + 1) = String a (slice_to s i).
Proof.
  intros Hi. unfold slice_to. cbn [String.length].
  destruct (Z.ltb_spec (i + 1) 0); [lia|]. destruct (Z.ltb_spec i 0); [lia|].
  rewrite !Z.min_l by lia.
  replace (Z.to_nat (i + 1)) with (S (Z.to_nat i)) by lia. reflexivity.
Qed.

Lemma slice_to_0 s : slice_to s 0 = "".
Proof.
  unfold slice_to. simpl. rewrite Z.min_l by lia. simpl. now destruct s.
Qed.

(** Cutting at the first occurrence: what is cut off starts with the
    character, and what is kept has none. *)
Lemma slice_to_find c s :
  contains c s = true ->
  exists rest,
    s = slice_to s (find c s) +:+ String c rest /\
    contains c (slice_to s (find c s)) = false.
Proof.
  induction s as [|a s IH]; [discriminate|].
  cbn [contains find]. destruct (Ascii.eqb_spec a c) as [->|Hne]; simpl.
  - intros _. exists s. now rewrite slice_to_0.
  - intros Hc. destruct (IH Hc) as (rest & Hs & Hno).
    pose proof (find_range c s) as Hr. rewrite Hc in Hr.
    destruct (Z.ltb_spec (find c s) 0); [lia|].
    rewrite slice_to_cons by lia. exists rest. split.
    + rewrite append_cons. now rewrite <- Hs.
    + cbn [contains]. rewrite Hno. destruct (Ascii.eqb_spec a c); [contradiction | reflexivity].
Qed.

(** *** Characters *)

Lemma join_app l1 l2 : join (l1 ++ l2) = join l1 +:+ join l2.
Proof.
  induction l1 as [|c l1 IH]; [reflexivity|]. cbn [join app]. fold (l1 ++ l2).
  rewrite IH. clear IH. induction c as [|a c IHc]; [reflexivity|].
  now rewrite !append_cons, IHc.
Qed.

(** Splitting a string into its characters loses nothing. *)
Lemma join_chars s : join (chars s) = s.
Proof.
  induction s as [|a s IH]; [reflexivity|]. cbn [chars].
  destruct (chars s) as [|c cs]; [cbn in *; now subst|].
  destruct (starts_continuation s); cbn [join] in *; rewrite ?append_cons, IH; reflexivity.
Qed.

Lemma chars_first b s :
  exists t cs, chars (String b s) = String b t :: cs.
Proof.
  cbn [chars]. destruct (chars s) as [|c cs]; [eauto|].
  destruct (starts_continuation s); eauto.
Qed.

(** The characters of a string: none is empty, the bytes after the first
    continue it, and every character but the first of the string starts
    with a byte that does not. *)
Lemma chars_wf s : wf (chars s).
Proof.
  induction s as [|a s IH]; [split; constructor|]. cbn [chars].
  destruct s as [|b s].
  - cbn. split; repeat constructor.
  - destruct (chars_first b s) as (t & cs & E). rewrite E in *.
    destruct IH as [Htail Hfresh]. cbn [tl] in Hfresh.
    apply Forall_cons in Htail as [Ht Htail]. cbn [starts_continuation].
    destruct (is_continuation b) eqn:Hb.
    + split; [|exact Hfresh]. constructor; [|exact Htail].
      cbn [tail_continues all_continue] in *. now rewrite Hb.
    + split; cbn [tl].
      * constructor; [reflexivity|]. now constructor.
      * constructor; [exact Hb | exact Hfresh].
Qed.

Lemma chars_cons a s :
  chars (String a s) =
  match chars s with
  | [] => [String a ""]
  | c :: cs => if starts_continuation s then String a c :: cs else String a "" :: c :: cs
  end.
Proof. reflexivity. Qed.

Lemma chars_cons_tail a t rest :
  all_continue t = true -> starts_continuation rest = false ->
  chars (String a (t +:+ rest)) = String a t :: chars rest.
Proof.
  revert a. induction t as [|b t IH]; intros a Ht Hrest.
  - change ("" +:+ rest) with rest. rewrite chars_cons, Hrest.
    now destruct (chars rest).
  - cbn [all_continue] in Ht. apply andb_true_iff in Ht as [Hb Ht].
    rewrite append_cons, chars_cons, (IH b Ht Hrest).
    cbn [starts_continuation]. now rewrite Hb.
Qed.

Lemma join_fresh cs :
  Forall starts_fresh cs -> starts_continuation (join cs) = false.
Proof.
  intros [|c cs' Hc _]; [reflexivity|]. cbn [join].
  destruct c as [|a t]; [destruct Hc|]. rewrite append_cons.
  cbn [starts_continuation starts_fresh] in *. exact Hc.
Qed.

(** Joining characters and splitting again gives the characters back. *)
Lemma chars_join cs : wf cs -> chars (join cs) = cs.
Proof.
  intros [Htail Hfresh]. induction Htail as [|c cs Hc Htail IH]; [reflexivity|].
  cbn [tl] in Hfresh. cbn [join].
  destruct c as [|a t]; [destruct Hc|]. cbn [tail_continues] in Hc.
  rewrite append_cons, (chars_cons_tail _ _ _ Hc (join_fresh _ Hfresh)).
  f_equal. apply IH. destruct Hfresh as [|c' cs' _ Hf]; [constructor | exact Hf].
Qed.

Lemma wf_middle l kept r : wf (l ++ kept ++ r) -> wf kept.
Proof.
  intros [Htail Hfresh]. apply Forall_app in Htail as [_ Htail].
  apply Forall_app in Htail as [Htail _]. split; [exact Htail|].
  destruct l as [|c l].
  - destruct kept as [|k kept]; [constructor|]. cbn [app tl] in *.
    now apply Forall_app in Hfresh as [Hfresh _].
  - cbn [app tl] in Hfresh. apply Forall_app in Hfresh as [_ Hfresh].
    apply Forall_app in Hfresh as [Hfresh _].
    destruct kept as [|k kept]; [constructor|]. cbn [tl].
    now apply Forall_cons in Hfresh as [_ Hfresh].
Qed.

(** *** [strip] *)

Lemma lstrip_decompose cs : exists l, cs = l ++ lstrip cs /\ forallb isspace l = true.
Proof.
  induction cs as [|c cs (l & Hs & Hl)]; [now exists []|].
  cbn [lstrip]. destruct (isspace c) eqn:Hc.
  - exists (c :: l). cbn [app forallb]. now rewrite <- Hs, Hc, Hl.
  - now exists [].
Qed.

Lemma rstrip_decompose cs : exists r, cs = rstrip cs ++ r /\ forallb isspace r = true.
Proof.
  induction cs as [|c cs (r & Hs & Hr)]; [now exists []|].
  cbn [rstrip]. destruct (rstrip cs) as [|b t] eqn:Ht.
  - cbn [app] in Hs. subst r. destruct (isspace c) eqn:Hc.
    + exists (c :: cs). split; [reflexivity|]. cbn [forallb]. now rewrite Hc, Hr.
    + exists cs. now split.
  - exists r. cbn [app] in *. now rewrite <- Hs.
Qed.

Lemma lstrip_head cs c t : lstrip cs = c :: t -> isspace c = false.
Proof.
  induction cs as [|b cs IH]; [discriminate|].
  cbn [lstrip]. destruct (isspace b) eqn:Hb; [exact IH|].
  now intros [= <- _].
Qed.

Lemma rstrip_head cs c t : rstrip cs = c :: t -> exists t', cs = c :: t'.
Proof.
  destruct cs as [|b cs]; [discriminate|]. cbn [rstrip].
  destruct (rstrip cs); [destruct (isspace b)|]; intros [= <- _]; eauto.
Qed.

Lemma rstrip_last cs t c : rstrip cs = t ++ [c] -> isspace c = false.
Proof.
  revert t. induction cs as [|b cs IH]; intros t.
  - destruct t; discriminate.
  - cbn [rstrip]. destruct (rstrip cs) as [|d r] eqn:Hr.
    + destruct (isspace b) eqn:Hb; [destruct t; discriminate|].
      destruct t as [|b' t]; [now intros [= <-]|].
      cbn [app]. intros [= _ H]. destruct t; discriminate.
    + destruct t as [|b' t]; [discriminate|].
      cbn [app]. intros [= _ H]. now apply (IH t).
Qed.

Lemma lstrip_all_space cs : forallb isspace cs = true -> lstrip cs = [].
Proof.
  induction cs as [|c cs IH]; [reflexivity|]. cbn [forallb lstrip].
  intros H. apply andb_true_iff in H as [Hc Hs]. rewrite Hc. now apply IH.
Qed.

Lemma rstrip_empty cs : rstrip cs = [] <-> forallb isspace cs = true.
Proof.
  induction cs as [|c cs IH]; [easy|]. cbn [rstrip forallb].
  destruct (rstrip cs) as [|b t].
  - destruct (isspace c); cbn [andb]; [tauto|]. split; discriminate.
  - split; [discriminate|]. intros H. apply andb_true_iff in H as [_ H].
    apply IH in H. discriminate.
Qed.

(** What [strip] keeps of the characters: a run of white space is cut at
    each end, and what is left neither starts nor ends with white space;
    nothing is left exactly of white space only. *)
Lemma strip_chars cs :
  exists l r,
    cs = l ++ rstrip (lstrip cs) ++ r /\
    forallb isspace l = true /\ forallb isspace r = true /\
    clean_ends (rstrip (lstrip cs)) /\
    (rstrip (lstrip cs) = [] <-> forallb isspace cs = true).
Proof.
  destruct (lstrip_decompose cs) as (l & Hs & Hl).
  destruct (rstrip_decompose (lstrip cs)) as (r & Hs' & Hr).
  exists l, r. split; [now rewrite <- Hs', <- Hs|]. split; [exact Hl|].
  split; [exact Hr|]. split; [split|split].
  - intros c t H. apply rstrip_head in H as [t' H]. now apply lstrip_head in H.
  - intros t c. apply rstrip_last.
  - intros H. apply rstrip_empty in H.
    destruct (lstrip cs) as [|c t] eqn:Hls.
    + cbn [app] in Hs. rewrite app_nil_r in Hs. now subst l.
    + apply lstrip_head in Hls. cbn [forallb] in H. now rewrite Hls in H.
  - intros H. now rewrite (lstrip_all_space _ H).
Qed.

(** The same on strings. *)
Lemma strip_spec s :
  exists l r,
    chars s = l ++ chars (strip s) ++ r /\
    forallb isspace l = true /\ forallb isspace r = true /\
    clean_ends (chars (strip s)) /\
    (strip s = "" <-> forallb isspace (chars s) = true).
Proof.
  destruct (strip_chars (chars s)) as (l & r & Hs & Hl & Hr & Hends & Hempty).
  assert (Hkept : chars (strip s) = rstrip (lstrip (chars s))).
  { unfold strip. apply chars_join. apply (wf_middle l _ r).
    rewrite <- Hs. apply chars_wf. }
  exists l, r. rewrite Hkept.
  split; [exact Hs|]. split; [exact Hl|]. split; [exact Hr|]. split; [exact Hends|].
  split.
  - intros H. apply Hempty. rewrite <- Hkept, H. reflexivity.
  - intros H. apply Hempty in H. unfold strip. now rewrite H.
Qed.

(** ** The runtime on concrete values *)

Example format_two : format "%s - %s" [Int 2010; Str "Inception"] = Ret "2010 - Inception".
Proof. reflexivity. Qed.

Example format_width : format "%s %11s" [Str "4.0 K"; Str "Tue"] = Ret "4.0 K         Tue".
Proof. reflexivity. Qed.

Example strip_file_output : strip (" ASCII text" +:+ String (ascii_of_nat 10) "") = "ASCII text".
Proof. reflexivity. Qed.

Example find_comma : find "," "Nolan, Various" = 5.
Proof. reflexivity. Qed.

Example epoch : fromtimestamp utc 0 = Ret (mkdatetime (mkdate 1970 1 1) 0 0 0).
Proof. reflexivity. Qed.

Example leap_day_2024 :
  fromtimestamp utc 1709210096 = Ret (mkdatetime (mkdate 2024 2 29) 12 34 56).
Proof. reflexivity. Qed.

Example strftime_iso :
  (let! d := fromtimestamp utc 1709210096 in Ret (strftime C_locale d "%Y-%m-%d %H:%M"))
  = Ret "2024-02-29 12:34".
Proof. reflexivity. Qed.

Example strftime_day_month_year :
  (let! d := fromtimestamp utc 1672740000 in Ret (strftime C_locale d "%-d %b %Y"))
  = Ret "3 Jan 2023".
Proof. reflexivity. Qed.

Example strftime_weekday :
  (let! d := fromtimestamp utc 1672740000 in Ret (strftime C_locale d "%a"))
  = Ret "Tue".
Proof. reflexivity. Qed.

(** *** The [%] operator on the formats of the module *)

Lemma format_year_title a b : format "%s - %s" [a; b] = Ret (str a +:+ " - " +:+ str b).
Proof.
  unfold format. cbn [format_from Ascii.eqb Bool.eqb digit_of nat_of_ascii bind].
  simpl. now rewrite append_empty_r.
Qed.

Lemma format_size_date a b : format "%s %s" [a; b] = Ret (str a +:+ " " +:+ str b).
Proof.
  unfold format. cbn [format_from Ascii.eqb Bool.eqb digit_of nat_of_ascii bind].
  simpl. now rewrite append_empty_r.
Qed.

Lemma format_size_field a b :
  format "%s %11s" [a; b] = Ret (str a +:+ " " +:+ rjust 11 (str b)).
Proof.
  unfold format. cbn [format_from Ascii.eqb Bool.eqb digit_of nat_of_ascii bind].
  simpl. now rewrite append_empty_r.
Qed.

Lemma format_permissions a b c d :
  format "%s %s %s %s" [a; b; c; d]
  = Ret (str a +:+ " " +:+ str b +:+ " " +:+ str c +:+ " " +:+ str d).
Proof.
  unfold format. cbn [format_from Ascii.eqb Bool.eqb digit_of nat_of_ascii bind].
  simpl. now rewrite append_empty_r.
Qed.

(** ** The line modes *)

(** *** Default *)

(** C9: the Default strategy is registered as ["filename"]; its title is
    the relative path of the entry, unchanged, and its info string is the
    not-implemented signal for every environment, entry and metadata. *)
Theorem DefaultLinemode_title_and_no_info env fobj metadata :
  name DefaultLinemode = "filename" /\
  filetitle DefaultLinemode env fobj metadata = Ret (Str (relative_path fobj)) /\
  infostring DefaultLinemode env fobj metadata = Raise NotImplementedError.
Proof. repeat split. Qed.

(** *** Title *)

(** C7, as the code has it: with a title [t], the title line is the
    year, [" - "] and [t] when the year is true in Python, that is a
    non-empty string or a non-zero number, and [t] alone otherwise: when
    the year is [None], the empty string or the number 0. *)
Theorem TitleLinemode_filetitle env fobj t y a :
  (truthy y = true ->
   filetitle TitleLinemode env fobj (mkMetadata (Str t) y a)
   = Ret (Str (str y +:+ " - " +:+ t))) /\
  (truthy y = false ->
   filetitle TitleLinemode env fobj (mkMetadata (Str t) y a) = Ret (Str t)) /\
  (truthy y = false <-> y = PyNone \/ y = Str "" \/ y = Int 0) /\
  (forall s, y = Str s -> str y = s) /\
  (forall n, y = Int n -> str y = decimal n).
Proof.
  split; [|split; [|split; [|split]]].
  - intros Hy. cbn [filetitle TitleLinemode title Linemode.year]. rewrite Hy.
    now rewrite format_year_title.
  - intros Hy. cbn [filetitle TitleLinemode title Linemode.year]. now rewrite Hy.
  - destruct y as [|s|n]; cbn [truthy].
    + split; [now left | reflexivity].
    + destruct (String.eqb_spec s ""); cbn [negb].
      * subst s. split; [now right; left | reflexivity].
      * split; [discriminate|]. intros [H|[H|H]]; congruence.
    + destruct (Z.eqb_spec n 0); cbn [negb].
      * subst n. split; [now right; right | reflexivity].
      * split; [discriminate|]. intros [H|[H|H]]; congruence.
  - now intros s ->.
  - now intros n ->.
Qed.

Lemma TitleLinemode_filetitle_witness :
  filetitle TitleLinemode (at_noon C_locale) (aged 0)
    (mkMetadata (Str "Inception") (Str "2010") PyNone)
  = Ret (Str "2010 - Inception") /\
  filetitle TitleLinemode (at_noon C_locale) (aged 0)
    (mkMetadata (Str "Inception") PyNone PyNone)
  = Ret (Str "Inception").
Proof.
  split.
  - apply (proj1 (TitleLinemode_filetitle (at_noon C_locale) (aged 0) "Inception"
                    (Str "2010") PyNone)).
    reflexivity.
  - apply (proj1 (proj2 (TitleLinemode_filetitle (at_noon C_locale) (aged 0)
                           "Inception" PyNone PyNone))).
    reflexivity.
Defined.

(** C7 as stated fails: the number 0 is a year that is present, and the
    title is shown without it. *)
Lemma TitleLinemode_filetitle_year_zero :
  filetitle TitleLinemode (at_noon C_locale) (aged 0)
    (mkMetadata (Str "Inception") (Int 0) PyNone)
  = Ret (Str "Inception") /\
  filetitle TitleLinemode (at_noon C_locale) (aged 0)
    (mkMetadata (Str "Inception") (Int 0) PyNone)
  <> Ret (Str (str (Int 0) +:+ " - " +:+ "Inception")).
Proof. split; [reflexivity | discriminate]. Qed.

(** C8: the info string of the Title strategy is the authors string up to,
    and without, its first comma; the whole string when it has no comma;
    and the empty string when there are no authors.  It is never the
    not-implemented signal. *)
Theorem TitleLinemode_infostring env fobj t y :
  (forall s, contains "," s = true ->
     exists first rest,
       s = first +:+ "," +:+ rest /\ contains "," first = false /\
       infostring TitleLinemode env fobj (mkMetadata t y (Str s)) = Ret (Str first)) /\
  (forall s, contains "," s = false ->
     infostring TitleLinemode env fobj (mkMetadata t y (Str s)) = Ret (Str s)) /\
  infostring TitleLinemode env fobj (mkMetadata t y PyNone) = Ret (Str "") /\
  (forall a, infostring TitleLinemode env fobj (mkMetadata t y a) <> Raise NotImplementedError).
Proof.
  repeat split.
  - intros s Hs. destruct (slice_to_find "," s Hs) as (rest & Hcut & Hno).
    exists (slice_to s (find "," s)), rest. repeat split; [exact Hcut | exact Hno |].
    cbn [infostring TitleLinemode authors truthy].
    destruct s as [|c s]; [discriminate|]. cbn [String.eqb negb].
    now rewrite Hs.
  - intros s Hs. cbn [infostring TitleLinemode authors truthy].
    destruct s as [|c s]; [reflexivity|]. cbn [String.eqb negb]. now rewrite Hs.
  - intros a. cbn [infostring TitleLinemode authors].
    destruct (truthy a); [|discriminate].
    destruct a as [|s|n]; try discriminate.
    destruct (contains "," s); discriminate.
Qed.

Lemma TitleLinemode_infostring_witness :
  exists first rest,
    "Nolan, Various" = first +:+ "," +:+ rest /\ contains "," first = false /\
    infostring TitleLinemode (at_noon C_locale) (aged 0)
      (mkMetadata (Str "Inception") (Str "2010") (Str "Nolan, Various"))
    = Ret (Str first).
Proof.
  apply (proj1 (TitleLinemode_infostring (at_noon C_locale) (aged 0)
                  (Str "Inception") (Str "2010"))).
  reflexivity.
Defined.

(** *** File info *)

(** C5: on an entry that is not a directory, when [file -Lb path] exits
    with status 0 the info string is its output stripped: the characters
    of the output are a run of white space, the characters of the info
    string, and a run of white space, and the info string neither starts
    nor ends with a white-space character.  When the command exits with
    another status the info string is ["unknown"]; on a directory it is
    the not-implemented signal. *)
Theorem FileInfoLinemode_infostring env fobj metadata :
  (is_directory fobj = false ->
   forall returncode stdout,
     run env ["file"; "-Lb"; path fobj] = Exited returncode stdout ->
     (returncode = 0 ->
        infostring FileInfoLinemode env fobj metadata = Ret (Str (strip stdout)) /\
        exists l r,
          chars stdout = l ++ chars (strip stdout) ++ r /\
          forallb isspace l = true /\ forallb isspace r = true /\
          clean_ends (chars (strip stdout)) /\
          stdout = join l +:+ strip stdout +:+ join r) /\
     (returncode <> 0 ->
        infostring FileInfoLinemode env fobj metadata = Ret (Str "unknown"))) /\
  (is_directory fobj = true ->
   infostring FileInfoLinemode env fobj metadata = Raise NotImplementedError).
Proof.
  split.
  - intros Hdir returncode stdout Hrun.
    cbn [infostring FileInfoLinemode]. unfold check_output.
    rewrite Hdir, Hrun. cbn [negb]. split.
    + intros ->. split; [reflexivity|].
      destruct (strip_spec stdout) as (l & r & Hs & Hl & Hr & Hends & _).
      exists l, r. repeat (split; [assumption|]).
      rewrite <- (join_chars stdout) at 1. rewrite Hs, !join_app.
      now rewrite (join_chars (strip stdout)).
    + intros Hrc. apply Z.eqb_neq in Hrc. now rewrite Hrc.
  - intros Hdir. cbn [infostring FileInfoLinemode]. now rewrite Hdir.
Qed.

Lemma FileInfoLinemode_infostring_witness :
  infostring FileInfoLinemode
    (file_exits 0 ("ASCII text" +:+ String (ascii_of_nat 10) "")) (aged 0) no_metadata
  = Ret (Str "ASCII text") /\
  infostring FileInfoLinemode (file_exits 1 "") (aged 0) no_metadata
  = Ret (Str "unknown") /\
  infostring FileInfoLinemode (file_exits 0 "directory") a_directory no_metadata
  = Raise NotImplementedError.
Proof.
  split; [|split].
  - apply (proj1 (FileInfoLinemode_infostring
                    (file_exits 0 ("ASCII text" +:+ String (ascii_of_nat 10) ""))
                    (aged 0) no_metadata) eq_refl
             0 ("ASCII text" +:+ String (ascii_of_nat 10) "") eq_refl).
    reflexivity.
  - apply (proj1 (FileInfoLinemode_infostring (file_exits 1 "") (aged 0) no_metadata)
             eq_refl 1 "" eq_refl).
    discriminate.
  - apply (proj2 (FileInfoLinemode_infostring (file_exits 0 "directory")
                    a_directory no_metadata)).
    reflexivity.
Defined.

(** C10: on an entry that is not a directory, an exception of
    [check_output] other than [CalledProcessError], such as the [OSError]
    of a command that is not installed, leaves [infostring] as it is. *)
Theorem FileInfoLinemode_other_failures_propagate env fobj metadata e :
  is_directory fobj = false ->
  check_output env ["file"; "-Lb"; path fobj] = Raise e ->
  is_CalledProcessError e = false ->
  infostring FileInfoLinemode env fobj metadata = Raise e.
Proof.
  intros Hdir Hout He. cbn [infostring FileInfoLinemode].
  now rewrite Hdir, Hout, He.
Qed.

Lemma FileInfoLinemode_other_failures_propagate_witness :
  infostring FileInfoLinemode (at_noon C_locale) (aged 0) no_metadata = Raise OSError.
Proof.
  apply FileInfoLinemode_other_failures_propagate; reflexivity.
Defined.

(** *** Modification time *)

Lemma length_date_hour_minute d :
  1000 <= Datetime.year (date_of d) ->
  date_hour_minute d
  = four_digits (Datetime.year (date_of d)) +:+ "-"
    +:+ two_digits (Datetime.month (date_of d)) +:+ "-"
    +:+ two_digits (Datetime.day (date_of d)) +:+ " " +:+ hour_minute d /\
  String.length (date_hour_minute d) = 16%nat.
Proof.
  intros Hy. unfold date_hour_minute. rewrite (numeral_four_digits _ Hy).
  split; reflexivity.
Qed.

(** C6, as the code has it: without a stat both info strings are ["?"];
    with a stat, and a modification time [datetime] can hold, [mtime]
    shows the year in decimal, then [-MM-DD HH:MM], zero-padded with the
    hour from 00 to 23, and [sizemtime] shows the readable size, one space
    and the same date.  From the year 1000 on the year has four digits
    and the date is [YYYY-MM-DD HH:MM], 16 characters long. *)
Theorem Mtime_and_SizeMtime_infostring human_readable env fobj metadata :
  (stat fobj = None ->
     infostring MtimeLinemode env fobj metadata = Ret (Str "?") /\
     infostring (SizeMtimeLinemode human_readable) env fobj metadata = Ret (Str "?")) /\
  (forall st d,
     stat fobj = Some st ->
     fromtimestamp (utcoffset env) (st_mtime st) = Ret d ->
     infostring MtimeLinemode env fobj metadata = Ret (Str (date_hour_minute d)) /\
     infostring (SizeMtimeLinemode human_readable) env fobj metadata
     = Ret (Str (human_readable (size fobj) +:+ " " +:+ date_hour_minute d)) /\
     0 <= hour d <= 23 /\ 0 <= minute d <= 59 /\
     (1000 <= Datetime.year (date_of d) ->
      date_hour_minute d
      = four_digits (Datetime.year (date_of d)) +:+ "-"
        +:+ two_digits (Datetime.month (date_of d)) +:+ "-"
        +:+ two_digits (Datetime.day (date_of d)) +:+ " " +:+ hour_minute d /\
      String.length (date_hour_minute d) = 16%nat)).
Proof.
  split.
  - intros Hstat. cbn [infostring MtimeLinemode SizeMtimeLinemode]. now rewrite Hstat.
  - intros st d Hstat Hd. cbn [infostring MtimeLinemode SizeMtimeLinemode].
    rewrite Hstat, Hd. cbn [bind].
    destruct (fromtimestamp_Ret _ _ _ Hd) as [_ Hwf].
    rewrite (strftime_Y_m_d_H_M _ _ Hwf), format_size_date. cbn [bind str].
    split; [reflexivity|]. split; [reflexivity|].
    split; [apply Hwf|]. split; [apply Hwf|]. apply length_date_hour_minute.
Qed.

Lemma Mtime_and_SizeMtime_infostring_witness :
  (infostring MtimeLinemode (at_noon C_locale) unreadable no_metadata = Ret (Str "?") /\
   infostring (SizeMtimeLinemode in_bytes) (at_noon C_locale) unreadable no_metadata
   = Ret (Str "?")) /\
  infostring MtimeLinemode (at_noon C_locale) (aged 365) no_metadata
  = Ret (Str "2023-03-11 09:30") /\
  infostring (SizeMtimeLinemode in_bytes) (at_noon C_locale) (aged 365) no_metadata
  = Ret (Str "4096 B 2023-03-11 09:30").
Proof.
  split.
  - apply (proj1 (Mtime_and_SizeMtime_infostring in_bytes (at_noon C_locale)
                    unreadable no_metadata)).
    reflexivity.
  - destruct (proj2 (Mtime_and_SizeMtime_infostring in_bytes (at_noon C_locale)
                       (aged 365) no_metadata)
                (mkStat (noon - 9000 - 86400 * 365))
                (mkdatetime (mkdate 2023 3 11) 9 30 0) eq_refl eq_refl)
      as (H1 & H2 & _).
    split; [exact H1 | exact H2].
Defined.

(** C6 as stated fails: a file of the year 999 is shown with a year of
    three digits, in 15 characters. *)
Lemma Mtime_infostring_year_999 :
  infostring MtimeLinemode (at_noon C_locale) charter no_metadata
  = Ret (Str "999-01-01 09:30") /\
  String.length "999-01-01 09:30" = 15%nat /\
  infostring MtimeLinemode (at_noon C_locale) charter no_metadata
  <> Ret (Str (four_digits 999 +:+ "-" +:+ two_digits 1 +:+ "-" +:+ two_digits 1
               +:+ " " +:+ two_digits 9 +:+ ":" +:+ two_digits 30)).
Proof.
  split; [vm_compute; reflexivity|]. split; [reflexivity|].
  intros H. vm_compute in H. discriminate H.
Qed.

(** *** Human-readable modification time *)

Lemma humanmtime_infostring_eq env fobj metadata st file_date today :
  stat fobj = Some st ->
  fromtimestamp (utcoffset env) (st_mtime st) = Ret file_date ->
  now env = Ret today ->
  infostring HumanMtimeLinemode env fobj metadata
  = Ret (Str (if 364 <? days_diff env st then day_month_year (lc_time env) file_date
              else if 6 <? days_diff env st then day_month (lc_time env) file_date
              else if 1 <=? days_diff env st then weekday_abbr (lc_time env) file_date
              else hour_minute file_date)).
Proof.
  intros Hstat Hfile Hnow. cbn [infostring HumanMtimeLinemode].
  rewrite Hstat, Hfile, Hnow. cbn [bind].
  unfold now in Hnow. rewrite (date_sub_days _ _ _ _ _ Hnow Hfile).
  fold (days_diff env st).
  destruct (fromtimestamp_Ret _ _ _ Hfile) as [_ Hwf].
  rewrite (strftime_d_b_Y _ _ Hwf), (strftime_d_b _ _ Hwf), strftime_a,
    (strftime_H_M _ _ Hwf).
  repeat destruct (_ <? _); try destruct (_ <=? _); reflexivity.
Qed.

Lemma tier_of_if loc d diff :
  tier loc d diff
    (if 364 <? diff then day_month_year loc d
     else if 6 <? diff then day_month loc d
     else if 1 <=? diff then weekday_abbr loc d
     else hour_minute d).
Proof.
  unfold tier.
  destruct (Z.ltb_spec 364 diff); [repeat split; intros; (reflexivity || lia)|].
  destruct (Z.ltb_spec 6 diff); [repeat split; intros; (reflexivity || lia)|].
  destruct (Z.leb_spec 1 diff); repeat split; intros; (reflexivity || lia).
Qed.

(** C1, as the code has it: with a stat, and the two timestamps in the
    range of [datetime], the difference the code computes is today's local
    day number minus the file's, and the info string is the day, the
    month and the year above 364 days, [D Mon] from 7 to 364, the
    abbreviated weekday from 1 to 6 and [HH:MM] at 0 or below; so 365 days
    gives the year, 364 gives [D Mon], 6 and 1 give the weekday and 0
    gives [HH:MM].  The year is printed without padding: it has its four
    digits, [D Mon YYYY], from the year 1000 on. *)
Theorem HumanMtime_infostring_tiers env fobj metadata st file_date today :
  stat fobj = Some st ->
  fromtimestamp (utcoffset env) (st_mtime st) = Ret file_date ->
  now env = Ret today ->
  days (date_sub (date_of today) (date_of file_date)) = days_diff env st /\
  (exists shown,
     infostring HumanMtimeLinemode env fobj metadata = Ret (Str shown) /\
     tier (lc_time env) file_date (days_diff env st) shown /\
     (days_diff env st = 365 -> shown = day_month_year (lc_time env) file_date) /\
     (days_diff env st = 364 -> shown = day_month (lc_time env) file_date) /\
     (days_diff env st = 6 \/ days_diff env st = 1 ->
        shown = weekday_abbr (lc_time env) file_date) /\
     (days_diff env st = 0 -> shown = hour_minute file_date)) /\
  (1000 <= Datetime.year (date_of file_date) ->
   day_month_year (lc_time env) file_date
   = unpadded (Datetime.day (date_of file_date)) +:+ " "
     +:+ month_abbr (lc_time env) file_date +:+ " "
     +:+ four_digits (Datetime.year (date_of file_date))).
Proof.
  intros Hstat Hfile Hnow. split; [|split].
  - unfold now in Hnow. apply (date_sub_days _ _ _ _ _ Hnow Hfile).
  - eexists. split; [apply (humanmtime_infostring_eq _ _ _ _ _ _ Hstat Hfile Hnow)|].
    pose proof (tier_of_if (lc_time env) file_date (days_diff env st)) as Ht.
    split; [exact Ht|].
    destruct Ht as (T1 & T2 & T3 & T4).
    repeat split; intros; [apply T1 | apply T2 | apply T3 | apply T4]; lia.
  - intros Hy. unfold day_month_year. now rewrite (numeral_four_digits _ Hy).
Qed.

Lemma HumanMtime_infostring_tiers_witness :
  days_diff (at_noon C_locale) (mkStat (noon - 9000 - 86400 * 365)) = 365 /\
  infostring HumanMtimeLinemode (at_noon C_locale) (aged 365) no_metadata
  = Ret (Str "11 Mar 2023").
Proof.
  split; [reflexivity|].
  destruct (HumanMtime_infostring_tiers (at_noon C_locale) (aged 365) no_metadata
              (mkStat (noon - 9000 - 86400 * 365))
              (mkdatetime (mkdate 2023 3 11) 9 30 0)
              (mkdatetime (mkdate 2024 3 10) 12 0 0)
              eq_refl eq_refl eq_refl)
    as (_ & (shown & Hinfo & _ & H365 & _) & _).
  rewrite Hinfo, (H365 eq_refl). reflexivity.
Defined.

(** C1 as stated fails: a file of the year 999, more than 364 days old, is
    shown with a year of three digits. *)
Lemma HumanMtime_infostring_year_999 :
  364 < days_diff (at_noon C_locale) (mkStat year_999) /\
  infostring HumanMtimeLinemode (at_noon C_locale) charter no_metadata
  = Ret (Str "1 Jan 999") /\
  infostring HumanMtimeLinemode (at_noon C_locale) charter no_metadata
  <> Ret (Str (unpadded 1 +:+ " " +:+ "Jan" +:+ " " +:+ four_digits 999)).
Proof.
  split; [reflexivity|]. split; [vm_compute; reflexivity|].
  intros H. vm_compute in H. discriminate H.
Qed.

(** The five boundaries of the tiers, on a fixed clock. *)
Example humanmtime_365_days_ago :
  infostring HumanMtimeLinemode (at_noon C_locale) (aged 365) no_metadata
  = Ret (Str "11 Mar 2023").
Proof. reflexivity. Qed.

Example humanmtime_364_days_ago :
  infostring HumanMtimeLinemode (at_noon C_locale) (aged 364) no_metadata
  = Ret (Str "12 Mar").
Proof. reflexivity. Qed.

Example humanmtime_7_days_ago :
  infostring HumanMtimeLinemode (at_noon C_locale) (aged 7) no_metadata
  = Ret (Str "3 Mar").
Proof. reflexivity. Qed.

Example humanmtime_6_days_ago :
  infostring HumanMtimeLinemode (at_noon C_locale) (aged 6) no_metadata
  = Ret (Str "Mon").
Proof. reflexivity. Qed.

Example humanmtime_1_day_ago :
  infostring HumanMtimeLinemode (at_noon C_locale) (aged 1) no_metadata
  = Ret (Str "Sat").
Proof. reflexivity. Qed.

Example humanmtime_same_day :
  infostring HumanMtimeLinemode (at_noon C_locale) (aged 0) no_metadata
  = Ret (Str "09:30").
Proof. reflexivity. Qed.

Example humanmtime_tomorrow :
  infostring HumanMtimeLinemode (at_noon C_locale) (aged (-1)) no_metadata
  = Ret (Str "09:30").
Proof. reflexivity. Qed.

(** *** Size and human-readable modification time *)

Lemma name_at_short l i :
  Forall (fun s => (len s <= 3)%nat) l ->
  (len (name_at l i) <= 3)%nat.
Proof.
  intros Hl. unfold name_at. generalize (Z.to_nat i) as n.
  induction Hl as [|s l Hs _ IH]; intros [|n]; simpl; auto with arith.
Qed.

Lemma len_tier_short loc d diff shown :
  short_names loc -> tier loc d diff shown -> (len shown <= 11)%nat.
Proof.
  unfold short_names. intros Hloc (T1 & T2 & T3 & T4).
  apply Forall_app in Hloc as [Hmon Hday].
  pose proof (name_at_short _ (Datetime.month (date_of d) - 1) Hmon) as Lm.
  pose proof (name_at_short _ ((weekday (date_of d) + 1) mod 7) Hday) as Lw.
  pose proof (len_unpadded (Datetime.day (date_of d))) as Ld.
  pose proof (len_numeral (Datetime.year (date_of d))) as Ly.
  destruct (Z.ltb_spec 364 diff) as [H|H].
  { rewrite (T1 H). unfold day_month_year, month_abbr.
    rewrite !len_append. change (len " ") with 1%nat. lia. }
  destruct (Z.ltb_spec 6 diff) as [H'|H'].
  { rewrite (T2 (conj H' H)). unfold day_month, month_abbr.
    rewrite !len_append. change (len " ") with 1%nat. lia. }
  destruct (Z.leb_spec 1 diff) as [H''|H''].
  { rewrite (T3 ltac:(lia)). unfold weekday_abbr. lia. }
  rewrite (T4 ltac:(lia)). etransitivity; [apply len_le_length|]. simpl. lia.
Qed.

(** C2, as the code has it: with a stat and timestamps in the range of
    [datetime], the info string is the readable size, one space, and the
    string [humanmtime] shows for the same entry, right-justified with
    spaces in a field of 11 characters.  The field is 11 characters wide
    or as wide as the string when that is longer; it is 11 wide in a
    locale whose abbreviations have at most three characters. *)
Theorem SizeHumanMtime_infostring_field human_readable env fobj metadata st file_date today :
  stat fobj = Some st ->
  fromtimestamp (utcoffset env) (st_mtime st) = Ret file_date ->
  now env = Ret today ->
  exists shown,
    infostring HumanMtimeLinemode env fobj metadata = Ret (Str shown) /\
    tier (lc_time env) file_date (days_diff env st) shown /\
    infostring (SizeHumanMtimeLinemode human_readable) env fobj metadata
    = Ret (Str (human_readable (size fobj) +:+ " " +:+ rjust 11 shown)) /\
    rjust 11 shown = replicate_char (11 - len shown) " " +:+ shown /\
    len (rjust 11 shown) = Nat.max 11 (len shown) /\
    (short_names (lc_time env) -> len (rjust 11 shown) = 11%nat).
Proof.
  intros Hstat Hfile Hnow.
  eexists. split; [apply (humanmtime_infostring_eq _ _ _ _ _ _ Hstat Hfile Hnow)|].
  pose proof (tier_of_if (lc_time env) file_date (days_diff env st)) as Ht.
  split; [exact Ht|]. split.
  - cbn [infostring SizeHumanMtimeLinemode].
    rewrite Hstat, Hfile, Hnow. cbn [bind].
    unfold now in Hnow. rewrite (date_sub_days _ _ _ _ _ Hnow Hfile).
    fold (days_diff env st).
    destruct (fromtimestamp_Ret _ _ _ Hfile) as [_ Hwf].
    rewrite !format_size_field. cbn [bind str].
    rewrite (strftime_d_b_Y _ _ Hwf), (strftime_d_b _ _ Hwf), strftime_a,
      (strftime_H_M _ _ Hwf).
    repeat destruct (_ <? _); try destruct (_ <=? _); reflexivity.
  - split; [reflexivity|]. split; [apply len_rjust|].
    intros Hloc. rewrite len_rjust.
    pose proof (len_tier_short _ _ _ _ Hloc Ht). lia.
Qed.

Lemma C_locale_short_names : short_names C_locale.
Proof. unfold short_names. simpl. repeat constructor. Qed.

Lemma SizeHumanMtime_infostring_field_witness :
  infostring (SizeHumanMtimeLinemode in_bytes) (at_noon C_locale) (aged 6) no_metadata
  = Ret (Str "4096 B         Mon").
Proof.
  destruct (SizeHumanMtime_infostring_field in_bytes (at_noon C_locale) (aged 6)
              no_metadata
              (mkStat (noon - 9000 - 86400 * 6))
              (mkdatetime (mkdate 2024 3 4) 9 30 0)
              (mkdatetime (mkdate 2024 3 10) 12 0 0)
              eq_refl eq_refl eq_refl)
    as (shown & Hshown & _ & Hinfo & _).
  vm_compute in Hshown. injection Hshown as <-.
  rewrite Hinfo. vm_compute. reflexivity.
Defined.

(** C2 as stated fails: in the French locale a date of January has 13
    characters, and so has its field. *)
Lemma SizeHumanMtime_field_wider_than_11 :
  infostring (SizeHumanMtimeLinemode in_bytes) (at_noon fr_FR) (aged 420) no_metadata
  = Ret (Str ("4096 B" +:+ " " +:+ "15 janv. 2023")) /\
  len "15 janv. 2023" = 13%nat /\
  ~ (exists field,
       infostring (SizeHumanMtimeLinemode in_bytes) (at_noon fr_FR) (aged 420) no_metadata
       = Ret (Str (in_bytes (size (aged 420)) +:+ " " +:+ field)) /\
       len field = 11%nat).
Proof.
  split; [reflexivity|]. split; [reflexivity|].
  intros (field & Hinfo & Hlen).
  vm_compute in Hinfo. injection Hinfo as <-. discriminate Hlen.
Qed.

(** In the same locale a date of February, of 7 characters in 8 bytes, is
    padded with 4 spaces. *)
Example sizehumanmtime_february :
  infostring (SizeHumanMtimeLinemode in_bytes) (at_noon fr_FR) (aged 34) no_metadata
  = Ret (Str ("4096 B" +:+ " " +:+ "    " +:+ "5 févr.")).
Proof. vm_compute. reflexivity. Qed.

(** *** Two invocations *)

Lemma fromtimestamp_ext tz1 tz2 t : tz1 t = tz2 t -> fromtimestamp tz1 t = fromtimestamp tz2 t.
Proof. intros H. unfold fromtimestamp. now rewrite H. Qed.

(** On one local day [datetime.now()] has one date, or raises. *)
Lemma now_same_day e1 e2 :
  same_day e1 e2 ->
  (exists a b, now e1 = Ret a /\ now e2 = Ret b /\ date_of a = date_of b) \/
  (exists e, now e1 = Raise e /\ now e2 = Raise e).
Proof.
  unfold same_day, local_day, now, fromtimestamp. cbv zeta. intros ->.
  destruct (_ && _); [left | right]; eauto.
Qed.

Lemma mtime_agree e1 e2 fobj metadata :
  same_zone e1 e2 ->
  infostring MtimeLinemode e1 fobj metadata = infostring MtimeLinemode e2 fobj metadata.
Proof.
  intros Hz. cbn [infostring MtimeLinemode]. destruct (stat fobj) as [st|]; [|reflexivity].
  rewrite (fromtimestamp_ext _ _ _ (Hz (st_mtime st))).
  destruct (fromtimestamp _ _) as [d|e] eqn:Hd; [|reflexivity]. cbn [bind].
  destruct (fromtimestamp_Ret _ _ _ Hd) as [_ Hwf].
  now rewrite !(strftime_Y_m_d_H_M _ _ Hwf).
Qed.

Lemma sizemtime_agree human_readable e1 e2 fobj metadata :
  same_zone e1 e2 ->
  infostring (SizeMtimeLinemode human_readable) e1 fobj metadata
  = infostring (SizeMtimeLinemode human_readable) e2 fobj metadata.
Proof.
  intros Hz. cbn [infostring SizeMtimeLinemode].
  destruct (stat fobj) as [st|]; [|reflexivity].
  rewrite (fromtimestamp_ext _ _ _ (Hz (st_mtime st))).
  destruct (fromtimestamp _ _) as [d|e] eqn:Hd; [|reflexivity]. cbn [bind].
  destruct (fromtimestamp_Ret _ _ _ Hd) as [_ Hwf].
  now rewrite !(strftime_Y_m_d_H_M _ _ Hwf).
Qed.

Lemma humanmtime_agree e1 e2 fobj metadata :
  same_zone e1 e2 -> lc_time e1 = lc_time e2 -> same_day e1 e2 ->
  infostring HumanMtimeLinemode e1 fobj metadata
  = infostring HumanMtimeLinemode e2 fobj metadata.
Proof.
  intros Hz Hloc Hday. cbn [infostring HumanMtimeLinemode].
  destruct (stat fobj) as [st|]; [|reflexivity].
  rewrite (fromtimestamp_ext _ _ _ (Hz (st_mtime st))), Hloc.
  destruct (fromtimestamp _ _) as [d|e]; [|reflexivity]. cbn [bind].
  destruct (now_same_day _ _ Hday) as [(a & b & -> & -> & Hab)|(e & -> & ->)];
    [|reflexivity].
  cbn [bind]. now rewrite Hab.
Qed.

Lemma sizehumanmtime_agree human_readable e1 e2 fobj metadata :
  same_zone e1 e2 -> lc_time e1 = lc_time e2 -> same_day e1 e2 ->
  infostring (SizeHumanMtimeLinemode human_readable) e1 fobj metadata
  = infostring (SizeHumanMtimeLinemode human_readable) e2 fobj metadata.
Proof.
  intros Hz Hloc Hday. cbn [infostring SizeHumanMtimeLinemode].
  destruct (stat fobj) as [st|]; [|reflexivity].
  rewrite (fromtimestamp_ext _ _ _ (Hz (st_mtime st))), Hloc.
  destruct (fromtimestamp _ _) as [d|e]; [|reflexivity]. cbn [bind].
  destruct (now_same_day _ _ Hday) as [(a & b & -> & -> & Hab)|(e & -> & ->)];
    [|reflexivity].
  cbn [bind]. now rewrite Hab.
Qed.

Ltac other_name :=
  let H := fresh in
  intros H; repeat (destruct H as [H|H]); cbn in H; discriminate H.

(** C3, as the code has it: the title of every strategy, and the info
    string of Default, Title and Permissions, are the same in any two
    environments; the info string of [mtime] and [sizemtime] is the same
    under one time zone; that of [humanmtime] and [sizehumanmtime] is the
    same under one time zone and locale when the two calls fall on the
    same local day.  File info is left out. *)
Theorem invocations_agree human_readable e1 e2 fobj metadata s :
  In s (linemodes human_readable) ->
  filetitle s e1 fobj metadata = filetitle s e2 fobj metadata /\
  (name s = "filename" \/ name s = "metatitle" \/ name s = "permissions" ->
   infostring s e1 fobj metadata = infostring s e2 fobj metadata) /\
  (name s = "mtime" \/ name s = "sizemtime" ->
   same_zone e1 e2 ->
   infostring s e1 fobj metadata = infostring s e2 fobj metadata) /\
  (name s = "humanmtime" \/ name s = "sizehumanmtime" ->
   same_zone e1 e2 -> lc_time e1 = lc_time e2 -> same_day e1 e2 ->
   infostring s e1 fobj metadata = infostring s e2 fobj metadata).
Proof.
  intros Hin. unfold linemodes in Hin.
  repeat (destruct Hin as [<-|Hin]); [.. | destruct Hin];
    (split; [reflexivity|]); (split; [|split]);
    try other_name; try (intros _; reflexivity).
  - intros _. apply mtime_agree.
  - intros _. apply sizemtime_agree.
  - intros _. apply humanmtime_agree.
  - intros _. apply sizehumanmtime_agree.
Qed.

Lemma invocations_agree_witness :
  infostring HumanMtimeLinemode (at_noon C_locale) (aged 3) no_metadata
  = infostring HumanMtimeLinemode (mkEnv (noon + 7200) utc C_locale nothing_runs)
      (aged 3) no_metadata.
Proof.
  apply (invocations_agree in_bytes (at_noon C_locale)
           (mkEnv (noon + 7200) utc C_locale nothing_runs) (aged 3) no_metadata
           HumanMtimeLinemode).
  - simpl. tauto.
  - left. reflexivity.
  - intros t. reflexivity.
  - reflexivity.
  - reflexivity.
Defined.

(** C3 as stated fails: the same entry, one day apart on the clock and
    nothing else changed, is shown by [humanmtime] first with its time and
    then with its weekday. *)
Lemma humanmtime_differs_overnight :
  infostring HumanMtimeLinemode (at_noon C_locale) (aged 0) no_metadata
  = Ret (Str "09:30") /\
  infostring HumanMtimeLinemode (next_noon C_locale) (aged 0) no_metadata
  = Ret (Str "Sun") /\
  infostring HumanMtimeLinemode (at_noon C_locale) (aged 0) no_metadata
  <> infostring HumanMtimeLinemode (next_noon C_locale) (aged 0) no_metadata.
Proof.
  split; [vm_compute; reflexivity|]. split; [vm_compute; reflexivity|].
  intros H. vm_compute in H. discriminate H.
Qed.

(** ** The registry *)

Lemma lookup_register_all_other strategies (reg : gmap string LinemodeBase) mode :
  ~ In mode (map name strategies) ->
  register_all strategies reg !! mode = reg !! mode.
Proof.
  revert reg. induction strategies as [|s l IH]; intros reg Hno; [reflexivity|].
  cbn [register_all foldl]. fold (register_all l (register s reg)).
  rewrite IH by (intros H; apply Hno; now right).
  unfold register. apply lookup_insert_ne. intros E. apply Hno. now left.
Qed.

Lemma lookup_register_all_in strategies (reg : gmap string LinemodeBase) s :
  List.NoDup (map name strategies) -> In s strategies ->
  register_all strategies reg !! name s = Some s.
Proof.
  revert reg. induction strategies as [|a l IH]; intros reg Hnd Hin; [destruct Hin|].
  cbn [register_all foldl]. fold (register_all l (register a reg)).
  apply List.NoDup_cons_iff in Hnd as [Ha Hnd].
  destruct Hin as [<-|Hin].
  - rewrite lookup_register_all_other by exact Ha.
    unfold register. apply lookup_insert_eq.
  - now apply IH.
Qed.

Lemma lookup_register_all_stays strategies (reg : gmap string LinemodeBase) mode :
  is_Some (reg !! mode) -> is_Some (register_all strategies reg !! mode).
Proof.
  revert reg. induction strategies as [|a l IH]; intros reg Hreg; [exact Hreg|].
  cbn [register_all foldl]. fold (register_all l (register a reg)).
  apply IH. unfold register. rewrite lookup_insert. case_decide; eauto.
Qed.

Lemma linemode_names_NoDup human_readable :
  List.NoDup (map name (linemodes human_readable)).
Proof.
  cbn. repeat (apply List.NoDup_cons; [cbn; intuition discriminate|]).
  apply List.NoDup_nil.
Qed.

(** C4: [lookup] returns what [register] stored under a name and fails
    with [UnknownModeError] on a name that is not registered; in the
    registry built at startup every strategy is found under its name and
    no other name is, ["nonexistent"] among them; [default_name] is
    ["filename"], which is found at startup and after any further
    registration. *)
Theorem registry_lookup human_readable :
  (forall reg strategy, lookup (register strategy reg) (name strategy) = Ret strategy) /\
  (forall (reg : gmap string LinemodeBase) mode,
     reg !! mode = None -> lookup reg mode = Raise UnknownModeError) /\
  (forall s, In s (linemodes human_readable) ->
     lookup (startup human_readable) (name s) = Ret s) /\
  (forall mode, ~ In mode (map name (linemodes human_readable)) ->
     lookup (startup human_readable) mode = Raise UnknownModeError) /\
  lookup (startup human_readable) "nonexistent" = Raise UnknownModeError /\
  default_name = "filename" /\
  lookup (startup human_readable) default_name = Ret DefaultLinemode /\
  (forall more, exists s,
     lookup (register_all more (startup human_readable)) "filename" = Ret s).
Proof.
  assert (Hin : forall s, In s (linemodes human_readable) ->
                lookup (startup human_readable) (name s) = Ret s).
  { intros s Hs. unfold lookup, startup.
    now rewrite (lookup_register_all_in _ _ _ (linemode_names_NoDup human_readable) Hs). }
  assert (Hout : forall mode, ~ In mode (map name (linemodes human_readable)) ->
                 lookup (startup human_readable) mode = Raise UnknownModeError).
  { intros mode Hno. unfold lookup, startup.
    now rewrite lookup_register_all_other, lookup_empty by exact Hno. }
  split; [|split; [|split; [|split; [|split; [|split; [|split]]]]]].
  - intros reg strategy. unfold lookup, register. now rewrite lookup_insert_eq.
  - intros reg mode Hnone. unfold lookup. now rewrite Hnone.
  - exact Hin.
  - exact Hout.
  - apply Hout. cbn. intuition discriminate.
  - reflexivity.
  - apply (Hin DefaultLinemode). now left.
  - intros more.
    destruct (lookup_register_all_stays more (startup human_readable) "filename")
      as [s Hs].
    + specialize (Hin DefaultLinemode ltac:(now left)). unfold lookup in Hin.
      cbn [name DefaultLinemode] in Hin.
      destruct (startup human_readable !! "filename"); [eauto | discriminate].
    + exists s. unfold lookup. now rewrite Hs.
Qed.

Lemma registry_lookup_witness :
  lookup (startup in_bytes) "humanmtime" = Ret HumanMtimeLinemode /\
  lookup (∅ : gmap string LinemodeBase) "filename" = Raise UnknownModeError.
Proof.
  destruct (registry_lookup in_bytes) as (_ & Hnone & Hin & _).
  split.
  - apply (Hin HumanMtimeLinemode). simpl. tauto.
  - apply Hnone. apply lookup_empty.
Defined.

(** * Further properties of the line modes *)

(** ** Titles *)

(** X1: the title of the Permissions strategy is the permission string,
    the owner, the group and the relative path, in this order and one
    space apart; its info string is empty, and is a string, never the
    not-implemented signal. *)
Theorem PermissionsLinemode_title_and_info env fobj metadata :
  filetitle PermissionsLinemode env fobj metadata
  = Ret (Str (permission_string fobj +:+ " " +:+ user fobj +:+ " "
              +:+ group fobj +:+ " " +:+ relative_path fobj)) /\
  infostring PermissionsLinemode env fobj metadata = Ret (Str "").
Proof.
  split; [|reflexivity].
  cbn [filetitle PermissionsLinemode]. now rewrite format_permissions.
Qed.

(** X2: no title raises: the format strings of Title and Permissions
    have as many conversions as arguments, and the six other classes
    return the relative path as it is, File info without running its
    command. *)
Theorem filetitle_never_raises human_readable env fobj metadata s :
  In s (linemodes human_readable) ->
  (exists v, filetitle s env fobj metadata = Ret v) /\
  (name s <> "metatitle" -> name s <> "permissions" ->
   filetitle s env fobj metadata = Ret (Str (relative_path fobj))).
Proof.
  intros Hin. unfold linemodes in Hin.
  repeat (destruct Hin as [<-|Hin]); [.. | destruct Hin];
    try (split; [eexists|intros _ _]; reflexivity).
  - split; [|intros H; now destruct H].
    cbn [filetitle TitleLinemode]. destruct (truthy _); [|eauto].
    rewrite format_year_title. cbn [bind]. eauto.
  - split; [|intros _ H; now destruct H].
    cbn [filetitle PermissionsLinemode]. rewrite format_permissions. cbn [bind]. eauto.
Qed.

Lemma filetitle_never_raises_witness :
  filetitle FileInfoLinemode (at_noon C_locale) (aged 0) no_metadata
  = Ret (Str "notes.txt").
Proof.
  apply (filetitle_never_raises in_bytes (at_noon C_locale) (aged 0) no_metadata
           FileInfoLinemode).
  - simpl. tauto.
  - discriminate.
  - discriminate.
Defined.

(** X3: without a title the Title strategy has no string of its own to
    show: with no year either it returns [None], and with a year it
    prints the word [None] after it. *)
Theorem TitleLinemode_filetitle_without_title env fobj y a :
  (truthy y = false ->
   filetitle TitleLinemode env fobj (mkMetadata PyNone y a) = Ret PyNone) /\
  (truthy y = true ->
   filetitle TitleLinemode env fobj (mkMetadata PyNone y a)
   = Ret (Str (str y +:+ " - None"))).
Proof.
  split; intros Hy; cbn [filetitle TitleLinemode title Linemode.year]; rewrite Hy;
    [reflexivity|].
  now rewrite format_year_title.
Qed.

Lemma TitleLinemode_filetitle_without_title_witness :
  filetitle TitleLinemode (at_noon C_locale) (aged 0)
    (mkMetadata PyNone (Str "2010") PyNone)
  = Ret (Str "2010 - None") /\
  filetitle TitleLinemode (at_noon C_locale) (aged 0) no_metadata = Ret PyNone.
Proof.
  split.
  - apply (proj2 (TitleLinemode_filetitle_without_title (at_noon C_locale) (aged 0)
                    (Str "2010") PyNone)).
    reflexivity.
  - apply (proj1 (TitleLinemode_filetitle_without_title (at_noon C_locale) (aged 0)
                    PyNone PyNone)).
    reflexivity.
Defined.

(** ** Class attributes *)

(** X4: the eight classes have pairwise distinct names, none empty;
    [DEFAULT_LINEMODE] is the name of [DefaultLinemode]; a class that
    requires metadata fields also declares that it uses metadata, and
    Title is the only class that does. *)
Theorem linemode_attributes human_readable :
  List.NoDup (map name (linemodes human_readable)) /\
  (forall s, In s (linemodes human_readable) -> name s <> "") /\
  name DefaultLinemode = DEFAULT_LINEMODE /\
  (forall s, In s (linemodes human_readable) ->
     required_metadata s <> [] -> uses_metadata s = true) /\
  (forall s, In s (linemodes human_readable) ->
     uses_metadata s = true -> s = TitleLinemode).
Proof.
  split; [apply linemode_names_NoDup|].
  split; [|split; [reflexivity|split]]; intros s Hin; unfold linemodes in Hin;
    repeat (destruct Hin as [<-|Hin]); try destruct Hin;
    cbn; try discriminate; try reflexivity; try (intros H; now destruct H).
Qed.

Lemma linemode_attributes_witness :
  name (SizeHumanMtimeLinemode in_bytes) <> "" /\
  uses_metadata TitleLinemode = true.
Proof.
  destruct (linemode_attributes in_bytes) as (_ & Hname & _ & Hreq & _).
  split.
  - apply Hname. simpl. tauto.
  - apply (Hreq TitleLinemode); [simpl; tauto | discriminate].
Defined.

(** ** File info *)

(** X5: when [file] exits with status 0 the characters of the info
    string neither start nor end with white space, and the info string is
    empty exactly when the output is white space only, a no-break space
    included. *)
Theorem FileInfoLinemode_output_trimmed env fobj metadata stdout :
  is_directory fobj = false ->
  run env ["file"; "-Lb"; path fobj] = Exited 0 stdout ->
  exists info,
    infostring FileInfoLinemode env fobj metadata = Ret (Str info) /\
    clean_ends (chars info) /\
    (info = "" <-> forallb isspace (chars stdout) = true).
Proof.
  intros Hdir Hrun. exists (strip stdout). split; [|split].
  - cbn [infostring FileInfoLinemode]. unfold check_output.
    now rewrite Hdir, Hrun.
  - destruct (strip_spec stdout) as (l & r & _ & _ & _ & Hends & _). exact Hends.
  - destruct (strip_spec stdout) as (l & r & _ & _ & _ & _ & Hempty). exact Hempty.
Qed.

Lemma FileInfoLinemode_output_trimmed_witness :
  exists info,
    infostring FileInfoLinemode (file_exits 0 no_break_space_line) (aged 0) no_metadata
    = Ret (Str info) /\
    clean_ends (chars info) /\
    (info = "" <-> forallb isspace (chars no_break_space_line) = true).
Proof.
  apply (FileInfoLinemode_output_trimmed (file_exits 0 no_break_space_line)
           (aged 0) no_metadata); reflexivity.
Defined.

(** A no-break space and a newline are stripped to nothing. *)
Example strip_no_break_space : strip no_break_space_line = "".
Proof. reflexivity. Qed.

(** X6: the info string of File info reads nothing of the environment but
    the outcome of [file -Lb path]: two environments in which this
    command ends alike give the same info string, and for a directory
    any two environments do. *)
Theorem FileInfoLinemode_reads_one_command e1 e2 fobj metadata :
  is_directory fobj = true \/
  run e1 ["file"; "-Lb"; path fobj] = run e2 ["file"; "-Lb"; path fobj] ->
  infostring FileInfoLinemode e1 fobj metadata
  = infostring FileInfoLinemode e2 fobj metadata.
Proof.
  cbn [infostring FileInfoLinemode]. unfold check_output.
  intros [Hdir|Hrun]; [now rewrite Hdir | now rewrite Hrun].
Qed.

Lemma FileInfoLinemode_reads_one_command_witness :
  infostring FileInfoLinemode (at_noon C_locale) (aged 0) no_metadata
  = infostring FileInfoLinemode (next_noon fr_FR) (aged 0) no_metadata.
Proof.
  apply FileInfoLinemode_reads_one_command. right. reflexivity.
Defined.

(** ** The four strategies that show the modification time *)

(** X7: the four strategies handle no exception of the date conversion.
    Without a stat each returns ["?"] and reads neither the clock nor the
    time zone; with a stat, an exception of [fromtimestamp] on the
    modification time leaves each of them as it is; when only
    [datetime.now()] raises, [mtime] and [sizemtime] still return a string
    while [humanmtime] and [sizehumanmtime] raise that exception; when
    neither raises, all four return a string. *)
Theorem time_modes_errors human_readable env fobj metadata :
  let modes := [MtimeLinemode; SizeMtimeLinemode human_readable;
                HumanMtimeLinemode; SizeHumanMtimeLinemode human_readable] in
  (stat fobj = None ->
   forall s env', In s modes -> infostring s env' fobj metadata = Ret (Str "?")) /\
  (forall st e,
     stat fobj = Some st ->
     fromtimestamp (utcoffset env) (st_mtime st) = Raise e ->
     forall s, In s modes -> infostring s env fobj metadata = Raise e) /\
  (forall st file_date e,
     stat fobj = Some st ->
     fromtimestamp (utcoffset env) (st_mtime st) = Ret file_date ->
     now env = Raise e ->
     (exists shown, infostring MtimeLinemode env fobj metadata = Ret (Str shown)) /\
     (exists shown,
        infostring (SizeMtimeLinemode human_readable) env fobj metadata
        = Ret (Str shown)) /\
     infostring HumanMtimeLinemode env fobj metadata = Raise e /\
     infostring (SizeHumanMtimeLinemode human_readable) env fobj metadata = Raise e) /\
  (forall st file_date today,
     stat fobj = Some st ->
     fromtimestamp (utcoffset env) (st_mtime st) = Ret file_date ->
     now env = Ret today ->
     forall s, In s modes -> exists shown, infostring s env fobj metadata = Ret (Str shown)).
Proof.
  cbv zeta. split; [|split; [|split]].
  - intros Hstat s env' Hin.
    repeat (destruct Hin as [<-|Hin]); try destruct Hin;
      cbn [infostring MtimeLinemode SizeMtimeLinemode HumanMtimeLinemode
             SizeHumanMtimeLinemode];
      now rewrite Hstat.
  - intros st e Hstat Hfile s Hin.
    repeat (destruct Hin as [<-|Hin]); try destruct Hin;
      cbn [infostring MtimeLinemode SizeMtimeLinemode HumanMtimeLinemode
             SizeHumanMtimeLinemode];
      now rewrite Hstat, Hfile.
  - intros st file_date e Hstat Hfile Hnow.
    cbn [infostring MtimeLinemode SizeMtimeLinemode HumanMtimeLinemode
           SizeHumanMtimeLinemode].
    rewrite Hstat, Hfile, Hnow. cbn [bind]. rewrite format_size_date. cbn [bind].
    repeat split; eauto.
  - intros st file_date today Hstat Hfile Hnow s Hin.
    repeat (destruct Hin as [<-|Hin]); try destruct Hin;
      cbn [infostring MtimeLinemode SizeMtimeLinemode HumanMtimeLinemode
             SizeHumanMtimeLinemode];
      rewrite Hstat, Hfile; cbn [bind];
      rewrite ?Hnow, ?format_size_date; cbn [bind]; eauto.
    + repeat destruct (_ <? _); try destruct (_ <=? _); eauto.
    + rewrite !format_size_field. cbn [bind].
      repeat destruct (_ <? _); try destruct (_ <=? _); eauto.
Qed.

Lemma time_modes_errors_witness :
  infostring HumanMtimeLinemode (late_clock C_locale) unreadable no_metadata
  = Ret (Str "?") /\
  infostring (SizeMtimeLinemode in_bytes) (at_noon C_locale) far_future no_metadata
  = Raise ValueError /\
  infostring HumanMtimeLinemode (late_clock C_locale) (aged 0) no_metadata
  = Raise ValueError /\
  (exists shown,
     infostring HumanMtimeLinemode (at_noon C_locale) (aged 0) no_metadata
     = Ret (Str shown)).
Proof.
  split; [|split; [|split]].
  - apply (proj1 (time_modes_errors in_bytes (at_noon C_locale) unreadable no_metadata)
             eq_refl HumanMtimeLinemode (late_clock C_locale)).
    simpl. tauto.
  - destruct (time_modes_errors in_bytes (at_noon C_locale) far_future no_metadata)
      as (_ & Hfile & _).
    apply (Hfile (mkStat year_10000) ValueError eq_refl eq_refl). simpl. tauto.
  - destruct (time_modes_errors in_bytes (late_clock C_locale) (aged 0) no_metadata)
      as (_ & _ & Hnow & _).
    apply (Hnow (mkStat (noon - 9000 - 86400 * 0))
             (mkdatetime (mkdate 2024 3 10) 9 30 0) ValueError eq_refl eq_refl eq_refl).
  - destruct (time_modes_errors in_bytes (at_noon C_locale) (aged 0) no_metadata)
      as (_ & _ & _ & Hboth).
    apply (Hboth (mkStat (noon - 9000 - 86400 * 0))
             (mkdatetime (mkdate 2024 3 10) 9 30 0)
             (mkdatetime (mkdate 2024 3 10) 12 0 0) eq_refl eq_refl eq_refl).
    simpl. tauto.
Defined.

(** X8: under a constant offset to UTC the tier follows from the time
    elapsed since the modification: a file stamped in the future shows
    [HH:MM]; one less than 24 hours old shows [HH:MM] or the weekday; one
    from 1 to less than 6 days old shows the weekday; one from 7 to less
    than 364 days old shows [D Mon]; and one 365 days old or more shows
    the year. *)
Theorem humanmtime_by_elapsed_time env fobj metadata st file_date today offset :
  stat fobj = Some st ->
  fromtimestamp (utcoffset env) (st_mtime st) = Ret file_date ->
  now env = Ret today ->
  (forall t, utcoffset env t = offset) ->
  let elapsed := clock env - st_mtime st in
  let info := infostring HumanMtimeLinemode env fobj metadata in
  (elapsed < 0 -> info = Ret (Str (hour_minute file_date))) /\
  (0 <= elapsed < 86400 ->
   info = Ret (Str (hour_minute file_date)) \/
   info = Ret (Str (weekday_abbr (lc_time env) file_date))) /\
  (86400 <= elapsed < 6 * 86400 ->
   info = Ret (Str (weekday_abbr (lc_time env) file_date))) /\
  (7 * 86400 <= elapsed < 364 * 86400 ->
   info = Ret (Str (day_month (lc_time env) file_date))) /\
  (365 * 86400 <= elapsed ->
   info = Ret (Str (day_month_year (lc_time env) file_date))).
Proof.
  intros Hstat Hfile Hnow Hoff elapsed info. subst info.
  rewrite (humanmtime_infostring_eq _ _ _ _ _ _ Hstat Hfile Hnow).
  unfold days_diff, local_day. rewrite !Hoff. subst elapsed.
  set (A := clock env + offset). set (B := st_mtime st + offset).
  replace (clock env - st_mtime st) with (A - B) by (unfold A, B; lia).
  clearbody A B.
  assert (HA : A = 86400 * (A / 86400) + A mod 86400 /\ 0 <= A mod 86400 < 86400)
    by (split; [apply Z.div_mod | apply Z.mod_pos_bound]; lia).
  assert (HB : B = 86400 * (B / 86400) + B mod 86400 /\ 0 <= B mod 86400 < 86400)
    by (split; [apply Z.div_mod | apply Z.mod_pos_bound]; lia).
  set (diff := A / 86400 - B / 86400) in *.
  assert (Hdiff : 86400 * diff - 86400 < A - B < 86400 * diff + 86400)
    by (unfold diff; lia).
  clearbody diff.
  repeat split; intros He.
  - destruct (Z.ltb_spec 364 diff); [lia|]. destruct (Z.ltb_spec 6 diff); [lia|].
    destruct (Z.leb_spec 1 diff); [lia|]. reflexivity.
  - destruct (Z.ltb_spec 364 diff); [lia|]. destruct (Z.ltb_spec 6 diff); [lia|].
    destruct (Z.leb_spec 1 diff); [right | left]; reflexivity.
  - destruct (Z.ltb_spec 364 diff); [lia|]. destruct (Z.ltb_spec 6 diff); [lia|].
    destruct (Z.leb_spec 1 diff); [reflexivity | lia].
  - destruct (Z.ltb_spec 364 diff); [lia|]. destruct (Z.ltb_spec 6 diff); [|lia].
    reflexivity.
  - destruct (Z.ltb_spec 364 diff); [|lia]. reflexivity.
Qed.

Lemma humanmtime_by_elapsed_time_witness :
  infostring HumanMtimeLinemode (at_noon C_locale) (aged 3) no_metadata
  = Ret (Str "Thu").
Proof.
  destruct (humanmtime_by_elapsed_time (at_noon C_locale) (aged 3) no_metadata
              (mkStat (noon - 9000 - 86400 * 3))
              (mkdatetime (mkdate 2024 3 7) 9 30 0)
              (mkdatetime (mkdate 2024 3 10) 12 0 0) 0
              eq_refl eq_refl eq_refl (fun _ => eq_refl))
    as (_ & _ & Hweek & _).
  rewrite Hweek; [reflexivity|]. vm_compute. split; [discriminate | reflexivity].
Defined.

(** X9: the weekday shown for a file from 1 to 6 days old is the one of
    its local day number, counted from the Thursday of the epoch: the
    locale's name number [(day number + 4) mod 7], Sunday being 0. *)
Theorem humanmtime_weekday_of_day_number env fobj metadata st file_date today :
  stat fobj = Some st ->
  fromtimestamp (utcoffset env) (st_mtime st) = Ret file_date ->
  now env = Ret today ->
  1 <= days_diff env st <= 6 ->
  infostring HumanMtimeLinemode env fobj metadata
  = Ret (Str (name_at (abday (lc_time env))
                ((local_day (utcoffset env) (st_mtime st) + 4) mod 7))).
Proof.
  intros Hstat Hfile Hnow Hdiff.
  rewrite (humanmtime_infostring_eq _ _ _ _ _ _ Hstat Hfile Hnow).
  destruct (Z.ltb_spec 364 (days_diff env st)); [lia|].
  destruct (Z.ltb_spec 6 (days_diff env st)); [lia|].
  destruct (Z.leb_spec 1 (days_diff env st)); [|lia].
  unfold weekday_abbr. now rewrite (weekday_of_local_day _ _ _ Hfile).
Qed.

Lemma humanmtime_weekday_of_day_number_witness :
  infostring HumanMtimeLinemode (at_noon C_locale) (aged 6) no_metadata
  = Ret (Str "Mon").
Proof.
  rewrite (humanmtime_weekday_of_day_number (at_noon C_locale) (aged 6) no_metadata
             (mkStat (noon - 9000 - 86400 * 6))
             (mkdatetime (mkdate 2024 3 4) 9 30 0)
             (mkdatetime (mkdate 2024 3 10) 12 0 0)
             eq_refl eq_refl eq_refl).
  - reflexivity.
  - vm_compute. split; discriminate.
Defined.
